(** * Task-management backend: authorization and resource-access rules

    A shallow embedding of the domain services (user, project, task), the
    repositories and schema hooks they call, and the authentication /
    membership middleware, followed by the properties stated for them.

    Modelling conventions.
    - A MongoDB collection is a finite map from document id to document
      ([gmap string _]); an ObjectId is its canonical string, so
      [Types.ObjectId.equals] is string equality and [toString] the identity.
    - [populate] only changes how referenced documents are rendered in a
      response; ids read from a found document are the stored ids.
    - Every [async] function is a state transformer on the database
      ([IO A]); [await] is sequencing.  [new Date()] is the argument [now]
      and the id the driver generates for an inserted document is the
      argument [newId].
    - Documents handed to a repository satisfy the field validators of
      their schema (lengths, patterns, enum values, future due date), which
      the request schemas of the API layer enforce before a service runs;
      names are the trimmed, and emails the trimmed and lower-cased,
      strings the schema stores.
      An insert under an id (or, for users, an email) that is already
      present is the one persistence failure that is modelled; it takes the
      [catch] branch of the calling service. *)

From stdpp Require Import gmap strings list fin_maps.
From Stdlib Require Import ZArith.

Open Scope Z_scope.
Open Scope string_scope.

(** ** Data model *)

Abbreviation ObjectId := string (only parsing).
Abbreviation Date := Z (only parsing).

Inductive UserRole := role_admin | role_user.

Inductive ProjectStatus := ps_active | ps_completed | ps_paused.

Inductive TaskStatus := todo | in_progress | completed.

Inductive TaskPriority := low | medium | high.

#[global] Instance UserRole_eq_dec : EqDecision UserRole.
Proof. solve_decision. Defined.

#[global] Instance ProjectStatus_eq_dec : EqDecision ProjectStatus.
Proof. solve_decision. Defined.

#[global] Instance TaskStatus_eq_dec : EqDecision TaskStatus.
Proof. solve_decision. Defined.

#[global] Instance TaskPriority_eq_dec : EqDecision TaskPriority.
Proof. solve_decision. Defined.

(** IUserDocument (User.entity.ts). *)
Record User := mkUser {
  u_name : string;
  u_email : string;
  u_password : string;
  u_role : UserRole;
  u_avatar : option string;
  u_isActive : bool;
  u_lastLogin : option Date;
  u_createdAt : Date;
  u_updatedAt : Date
}.

(** IProjectDocument (Project.entity.ts). *)
Record Project := mkProject {
  p_name : string;
  p_description : string;
  p_owner : ObjectId;
  p_members : list ObjectId;
  p_status : ProjectStatus;
  p_createdAt : Date;
  p_updatedAt : Date
}.

(** ITaskDocument (Task.entity.ts). *)
Record Task := mkTask {
  t_title : string;
  t_description : string;
  t_projectId : ObjectId;
  t_assignedTo : ObjectId;
  t_status : TaskStatus;
  t_priority : TaskPriority;
  t_dueDate : Date;
  t_completedAt : option Date;
  t_createdAt : Date;
  t_updatedAt : Date
}.

(** The three collections. *)
Record Db := mkDb {
  users : gmap string User;
  projects : gmap string Project;
  tasks : gmap string Task
}.

(** The [code] of a failed ServiceResponse, and the [error] string of a
    response written by a middleware. *)
Inductive ErrorCode :=
| INVALID_MEMBERS | PROJECT_CREATION_ERROR | PROJECT_NOT_FOUND
| PROJECT_ACCESS_DENIED | INSUFFICIENT_PERMISSIONS | INVALID_USER
| ALREADY_MEMBER | CANNOT_REMOVE_OWNER | NOT_A_MEMBER
| TASK_CREATION_ERROR | TASK_NOT_FOUND | TASK_ACCESS_DENIED
| INVALID_ASSIGNED_USER | ASSIGNED_USER_NO_ACCESS
| TASKS_NOT_FOUND | TASKS_ACCESS_DENIED
| USER_EXISTS | REGISTRATION_ERROR | INVALID_CREDENTIALS | USER_INACTIVE
| INVALID_REFRESH_TOKEN | USER_NOT_FOUND | EMAIL_EXISTS | UPDATE_ERROR
| INVALID_PASSWORD
| MISSING_TOKEN | TOKEN_EXPIRED | INVALID_TOKEN | NOT_AUTHENTICATED.

#[global] Instance ErrorCode_eq_dec : EqDecision ErrorCode.
Proof. solve_decision. Defined.

(** ServiceResponse<T> (common.types.ts): [{success: true, data}] or
    [{success: false, error: {message, code}}]; the message is fixed by the
    code. *)
Inductive ServiceResponse (A : Type) :=
| success (data : A)
| failure (code : ErrorCode).

Arguments success {A} data.
Arguments failure {A} code.

(** ** Asynchronous code as state passing *)

Definition IO (A : Type) : Type := Db → A * Db.

Definition ret {A} (a : A) : IO A := λ db, (a, db).

Definition bind {A B} (m : IO A) (k : A → IO B) : IO B :=
  λ db, k (fst (m db)) (snd (m db)).

Notation "x <- m ;; k" := (bind m (λ x, k))
  (at level 100, m at next level, right associativity, only parsing).
Notation "m ;;; k" := (bind m (λ _, k))
  (at level 100, right associativity, only parsing).

(** JavaScript truthiness of an optional string: [undefined] and the empty
    string are falsy. *)
Definition truthy (o : option string) : bool :=
  match o with
  | Some s => negb (String.eqb s "")
  | None => false
  end.

(** [Types.ObjectId.equals] *)
Definition equals (a b : ObjectId) : bool := String.eqb a b.

(** ** External collaborators: bcryptjs, jsonwebtoken, configuration *)

(** JWTPayload (user.types.ts), without [iat] and [exp]. *)
Record JWTPayload := mkJWTPayload {
  jp_userId : ObjectId;
  jp_email : string;
  jp_role : UserRole
}.

(** The outcomes of [jwt.verify]: the decoded payload, or one of the two
    errors the middleware tells apart. *)
Inductive JwtVerified :=
| Decoded (payload : JWTPayload)
| TokenExpiredError
| JsonWebTokenError.

(** The library calls and secrets the services depend on.  Nothing is
    assumed about them. *)
Class Env := mkEnv {
  bcrypt_hash : string → string;
  bcrypt_compare : string → string → bool;
  jwt_sign : JWTPayload → string → string;
  jwt_verify : string → string → JwtVerified;
  jwt_secret : string;
  jwt_refreshSecret : string
}.

(** generateToken, generateRefreshToken, verifyRefreshToken (auth.ts:255). *)
Definition generateToken `{Env} (payload : JWTPayload) : string :=
  jwt_sign (mkJWTPayload (jp_userId payload) (jp_email payload) (jp_role payload))
           jwt_secret.

Definition generateRefreshToken `{Env} (payload : JWTPayload) : string :=
  jwt_sign (mkJWTPayload (jp_userId payload) (jp_email payload) (jp_role payload))
           jwt_refreshSecret.

Definition verifyRefreshToken `{Env} (token : string) : JwtVerified :=
  jwt_verify token jwt_refreshSecret.

(** ** User schema hooks and methods (User.entity.ts) *)

(** The update objects the user repository is called with: a profile
    update, [{password}], [{lastLogin}] or [{isActive}]. *)
Record UserUpdateQuery := mkUserUpdateQuery {
  upU_name : option string;
  upU_email : option string;
  upU_avatar : option string;
  upU_isActive : option bool;
  upU_password : option string;
  upU_lastLogin : option Date
}.

(** [userSchema.pre('save')] (User.entity.ts:101); [modifiedPassword] is
    [this.isModified('password')]. *)
Definition userSchema_pre_save `{Env} (modifiedPassword : bool) (this : User) : User :=
  if negb modifiedPassword then this
  else mkUser (u_name this) (u_email this) (bcrypt_hash (u_password this))
              (u_role this) (u_avatar this) (u_isActive this) (u_lastLogin this)
              (u_createdAt this) (u_updatedAt this).

(** [userSchema.pre('findOneAndUpdate')] (User.entity.ts:116). *)
Definition userSchema_pre_findOneAndUpdate `{Env} (update : UserUpdateQuery)
    : UserUpdateQuery :=
  if truthy (upU_password update)
  then mkUserUpdateQuery (upU_name update) (upU_email update) (upU_avatar update)
         (upU_isActive update) (bcrypt_hash <$> upU_password update)
         (upU_lastLogin update)
  else update.

Definition applyUserUpdate (q : UserUpdateQuery) (now : Date) (u : User) : User :=
  mkUser (default (u_name u) (upU_name q))
         (default (u_email u) (upU_email q))
         (default (u_password u) (upU_password q))
         (u_role u)
         (match upU_avatar q with Some a => Some a | None => u_avatar u end)
         (default (u_isActive u) (upU_isActive q))
         (match upU_lastLogin q with Some d => Some d | None => u_lastLogin u end)
         (u_createdAt u) now.

(** [comparePassword] (User.entity.ts:132). *)
Definition comparePassword `{Env} (this : User) (candidatePassword : string) : bool :=
  bcrypt_compare candidatePassword (u_password this).

(** SafeUser: the user object without its password. *)
Record SafeUser := mkSafeUser {
  su_id : ObjectId;
  su_name : string;
  su_email : string;
  su_role : UserRole;
  su_avatar : option string;
  su_isActive : bool;
  su_lastLogin : option Date;
  su_createdAt : Date;
  su_updatedAt : Date
}.

(** [toSafeObject] (User.entity.ts:141). *)
Definition toSafeObject (id : ObjectId) (this : User) : SafeUser :=
  mkSafeUser id (u_name this) (u_email this) (u_role this) (u_avatar this)
             (u_isActive this) (u_lastLogin this) (u_createdAt this) (u_updatedAt this).

(** ** UserRepository (user.repository.ts, base.repository.ts) *)

Module UserRepository.

Definition findById (id : ObjectId) : IO (option User) :=
  λ db, (users db !! id, db).

(** [findAll({_id: {$in: ids}, isActive: true})]: every stored user whose
    id occurs in [ids] and who is active, each once. *)
Definition findAllActiveIn (ids : list ObjectId) : IO (list (ObjectId * User)) :=
  λ db,
    (List.filter (λ kv, existsb (equals (fst kv)) ids && u_isActive (snd kv))
                 (map_to_list (users db)), db).

(** [findOne({email})] *)
Definition findByEmail (email : string) : IO (option (ObjectId * User)) :=
  λ db,
    (head (List.filter (λ kv, String.eqb (u_email (snd kv)) email)
                       (map_to_list (users db))), db).

(** [findOne({email}).select('+password')] *)
Definition findByEmailWithPassword (email : string) : IO (option (ObjectId * User)) :=
  findByEmail email.

(** [new this.model({name, email, password}).save()]: role and isActive
    take the schema defaults, the save hook hashes the password, and the
    unique index on email rejects a second document with the same email. *)
Definition create `{Env} (newId : ObjectId) (now : Date) (name email password : string)
    : IO (option User) :=
  λ db,
    match users db !! newId, fst (findByEmail email db) with
    | None, None =>
        let doc :=
          userSchema_pre_save true
            (mkUser name email password role_user None true None now now) in
        (Some doc, mkDb (<[newId := doc]> (users db)) (projects db) (tasks db))
    | _, _ => (None, db)
    end.

(** [findByIdAndUpdate(id, data, {new: true, runValidators: true})] *)
Definition update `{Env} (id : ObjectId) (data : UserUpdateQuery) (now : Date)
    : IO (option User) :=
  λ db,
    match users db !! id with
    | None => (None, db)
    | Some u =>
        let u' := applyUserUpdate (userSchema_pre_findOneAndUpdate data) now u in
        (Some u', mkDb (<[id := u']> (users db)) (projects db) (tasks db))
    end.

(** updateLastLogin (user.repository.ts:85) and the schema static of the
    same name (User.entity.ts:175): both are
    [findByIdAndUpdate(userId, {lastLogin: new Date()})]. *)
Definition updateLastLogin `{Env} (userId : ObjectId) (now : Date) : IO (option User) :=
  update userId (mkUserUpdateQuery None None None None None (Some now)) now.

(** deactivateUser, activateUser (user.repository.ts:92); no service calls
    them: a profile update carrying [isActive] is how an account is
    deactivated. *)
Definition deactivateUser `{Env} (userId : ObjectId) (now : Date) : IO (option User) :=
  update userId (mkUserUpdateQuery None None None (Some false) None None) now.

Definition activateUser `{Env} (userId : ObjectId) (now : Date) : IO (option User) :=
  update userId (mkUserUpdateQuery None None None (Some true) None None) now.

(** emailExists (user.repository.ts:166) *)
Definition emailExists (email : string) (excludeUserId : option ObjectId) : IO bool :=
  λ db,
    (existsb (λ kv, String.eqb (u_email (snd kv)) email
                    && (if truthy excludeUserId
                        then negb (equals (fst kv) (default "" excludeUserId))
                        else true))
             (map_to_list (users db)), db).

End UserRepository.

(** ** Project entity methods (Project.entity.ts) *)

(** [this.members.some(memberId => memberId.equals(userId))] *)
Definition isMember (project : Project) (userId : ObjectId) : bool :=
  existsb (λ memberId, equals memberId userId) (p_members project).

(** [this.owner.equals(userId)] *)
Definition isOwner (project : Project) (userId : ObjectId) : bool :=
  equals (p_owner project) userId.

(** ** ProjectRepository (project.repository.ts, base.repository.ts) *)

(** UpdateProject (project.types.ts). *)
Record UpdateProject := mkUpdateProject {
  upP_name : option string;
  upP_description : option string;
  upP_status : option ProjectStatus
}.

Module ProjectRepository.

Definition findById (id : ObjectId) : IO (option Project) :=
  λ db, (projects db !! id, db).

(** [new this.model(data).save()]; status takes the schema default. *)
Definition create (newId : ObjectId) (now : Date)
    (name description : string) (owner : ObjectId) (members : list ObjectId)
    : IO (option Project) :=
  λ db,
    match projects db !! newId with
    | Some _ => (None, db)
    | None =>
        let doc := mkProject name description owner members ps_active now now in
        (Some doc, mkDb (users db) (<[newId := doc]> (projects db)) (tasks db))
    end.

Definition applyUpdate (data : UpdateProject) (now : Date) (p : Project) : Project :=
  mkProject (default (p_name p) (upP_name data))
            (default (p_description p) (upP_description data))
            (p_owner p) (p_members p)
            (default (p_status p) (upP_status data))
            (p_createdAt p) now.

(** [findByIdAndUpdate(id, data, {new: true, runValidators: true})] *)
Definition update (id : ObjectId) (data : UpdateProject) (now : Date)
    : IO (option Project) :=
  λ db,
    match projects db !! id with
    | None => (None, db)
    | Some p =>
        let p' := applyUpdate data now p in
        (Some p', mkDb (users db) (<[id := p']> (projects db)) (tasks db))
    end.

(** [findByIdAndDelete(id)] *)
Definition delete (id : ObjectId) : IO bool :=
  λ db,
    match projects db !! id with
    | None => (false, db)
    | Some _ => (true, mkDb (users db) (base.delete id (projects db)) (tasks db))
    end.

(** [$addToSet]: append unless already present. *)
Definition addToSet (userId : ObjectId) (members : list ObjectId) : list ObjectId :=
  if existsb (equals userId) members then members else members ++ [userId].

(** [$pull]: drop every occurrence. *)
Definition pull (userId : ObjectId) (members : list ObjectId) : list ObjectId :=
  List.filter (λ m, negb (equals m userId)) members.

Definition setMembers (members : list ObjectId) (now : Date) (p : Project) : Project :=
  mkProject (p_name p) (p_description p) (p_owner p) members (p_status p)
            (p_createdAt p) now.

(** [findByIdAndUpdate(projectId, {$addToSet: {members: userId}}, {new: true})] *)
Definition addMember (projectId userId : ObjectId) (now : Date) : IO (option Project) :=
  λ db,
    match projects db !! projectId with
    | None => (None, db)
    | Some p =>
        let p' := setMembers (addToSet userId (p_members p)) now p in
        (Some p', mkDb (users db) (<[projectId := p']> (projects db)) (tasks db))
    end.

(** [findByIdAndUpdate(projectId, {$pull: {members: userId}}, {new: true})] *)
Definition removeMember (projectId userId : ObjectId) (now : Date) : IO (option Project) :=
  λ db,
    match projects db !! projectId with
    | None => (None, db)
    | Some p =>
        let p' := setMembers (pull userId (p_members p)) now p in
        (Some p', mkDb (users db) (<[projectId := p']> (projects db)) (tasks db))
    end.

(** userHasAccess (project.repository.ts:120). *)
Definition userHasAccess (projectId userId : ObjectId) : IO bool :=
  project <- findById projectId ;;
  match project with
  | None => ret false
  | Some project => ret (isOwner project userId || isMember project userId)
  end.

(** findByMember (project.repository.ts:29):
    [findAll({$or: [{owner: userId}, {members: userId}]})].  The order of a
    result list is not modelled, and [select] and [populate] shape the
    documents returned, not which documents are returned: the properties
    below speak of the ids of the result only. *)
Definition findByMember (userId : ObjectId) : IO (list (ObjectId * Project)) :=
  λ db,
    (List.filter (λ kv, equals (p_owner (snd kv)) userId
                        || existsb (λ m, equals m userId) (p_members (snd kv)))
                 (map_to_list (projects db)), db).

(** [count({owner: userId})] and [count({members: userId})], the two counts
    of getUserProjectDashboard (project.repository.ts:194). *)
Definition countOwned (userId : ObjectId) : IO nat :=
  λ db,
    (length (List.filter (λ kv, equals (p_owner (snd kv)) userId)
                         (map_to_list (projects db))), db).

Definition countMember (userId : ObjectId) : IO nat :=
  λ db,
    (length (List.filter (λ kv, existsb (λ m, equals m userId) (p_members (snd kv)))
                         (map_to_list (projects db))), db).

(** getUserProjectDashboard (project.repository.ts:194): the [myProjects]
    part of its result, as (owned, member, total); [recentProjects] is not
    modelled. *)
Definition getUserProjectDashboard (userId : ObjectId) : IO (nat * nat * nat) :=
  ownedProjects <- countOwned userId ;;
  memberProjects <- countMember userId ;;
  let totalProjects := (ownedProjects + memberProjects)%nat in
  ret (ownedProjects, memberProjects, totalProjects).

End ProjectRepository.

(** ** ProjectService (project.service.ts) *)

(** CreateProject (project.types.ts). *)
Record CreateProject := mkCreateProject {
  cp_name : string;
  cp_description : string;
  cp_members : option (list ObjectId)
}.

Module ProjectService.

(** createProject (project.service.ts:27). *)
Definition createProject (projectData : CreateProject) (ownerId : ObjectId)
    (newId : ObjectId) (now : Date) : IO (ServiceResponse Project) :=
  let proposed := default [] (cp_members projectData) in
  invalid <-
    (if (0 <? length proposed)%nat
     then
       validMembers <- UserRepository.findAllActiveIn proposed ;;
       ret (negb (length validMembers =? length proposed)%nat)
     else ret false) ;;
  if invalid
  then ret (failure INVALID_MEMBERS)
  else
    newProject <- ProjectRepository.create newId now (cp_name projectData)
                    (cp_description projectData) ownerId proposed ;;
    match newProject with
    | None => ret (failure PROJECT_CREATION_ERROR)
    | Some _ =>
        populatedProject <- ProjectRepository.findById newId ;;
        match populatedProject with
        | Some p => ret (success p)
        | None => ret (failure PROJECT_CREATION_ERROR)
        end
    end.

(** getProjectById (project.service.ts:78); [userId] is optional. *)
Definition getProjectById (projectId : ObjectId) (userId : option ObjectId)
    : IO (ServiceResponse Project) :=
  project <- ProjectRepository.findById projectId ;;
  match project with
  | None => ret (failure PROJECT_NOT_FOUND)
  | Some project =>
      if truthy userId
         && negb (isOwner project (default "" userId))
         && negb (isMember project (default "" userId))
      then ret (failure PROJECT_ACCESS_DENIED)
      else ret (success project)
  end.

(** updateProject (project.service.ts:170). *)
Definition updateProject (projectId : ObjectId) (updateData : UpdateProject)
    (userId : ObjectId) (now : Date) : IO (ServiceResponse (option Project)) :=
  project <- ProjectRepository.findById projectId ;;
  match project with
  | None => ret (failure PROJECT_NOT_FOUND)
  | Some project =>
      if negb (isOwner project userId)
      then ret (failure INSUFFICIENT_PERMISSIONS)
      else
        ProjectRepository.update projectId updateData now ;;;
        populatedProject <- ProjectRepository.findById projectId ;;
        ret (success populatedProject)
  end.

(** deleteProject (project.service.ts:225). *)
Definition deleteProject (projectId userId : ObjectId) : IO (ServiceResponse unit) :=
  project <- ProjectRepository.findById projectId ;;
  match project with
  | None => ret (failure PROJECT_NOT_FOUND)
  | Some project =>
      if negb (isOwner project userId)
      then ret (failure INSUFFICIENT_PERMISSIONS)
      else
        ProjectRepository.delete projectId ;;;
        ret (success tt)
  end.

(** addMember (project.service.ts:271). *)
Definition addMember (projectId memberUserId requestUserId : ObjectId) (now : Date)
    : IO (ServiceResponse (option Project)) :=
  project <- ProjectRepository.findById projectId ;;
  match project with
  | None => ret (failure PROJECT_NOT_FOUND)
  | Some project =>
      if negb (isOwner project requestUserId)
      then ret (failure INSUFFICIENT_PERMISSIONS)
      else
        memberUser <- UserRepository.findById memberUserId ;;
        if negb (from_option u_isActive false memberUser)
        then ret (failure INVALID_USER)
        else if isMember project memberUserId || isOwner project memberUserId
        then ret (failure ALREADY_MEMBER)
        else
          updatedProject <- ProjectRepository.addMember projectId memberUserId now ;;
          ret (success updatedProject)
  end.

(** removeMember (project.service.ts:340); [requestUserId !== memberUserId]
    compares the two strings. *)
Definition removeMember (projectId memberUserId requestUserId : ObjectId) (now : Date)
    : IO (ServiceResponse (option Project)) :=
  project <- ProjectRepository.findById projectId ;;
  match project with
  | None => ret (failure PROJECT_NOT_FOUND)
  | Some project =>
      if negb (isOwner project requestUserId)
         && negb (String.eqb requestUserId memberUserId)
      then ret (failure INSUFFICIENT_PERMISSIONS)
      else if isOwner project memberUserId
      then ret (failure CANNOT_REMOVE_OWNER)
      else if negb (isMember project memberUserId)
      then ret (failure NOT_A_MEMBER)
      else
        updatedProject <- ProjectRepository.removeMember projectId memberUserId now ;;
        ret (success updatedProject)
  end.

(** getUserProjects (project.service.ts:123). *)
Definition getUserProjects (userId : ObjectId)
    : IO (ServiceResponse (list (ObjectId * Project))) :=
  projects <- ProjectRepository.findByMember userId ;;
  ret (success projects).

End ProjectService.

(** ** Task schema hooks (Task.entity.ts) *)

(** UpdateTask (task.types.ts); BulkUpdateTasks.updates has the status,
    priority and assignedTo fields only. *)
Record UpdateTask := mkUpdateTask {
  upT_title : option string;
  upT_description : option string;
  upT_assignedTo : option ObjectId;
  upT_status : option TaskStatus;
  upT_priority : option TaskPriority;
  upT_dueDate : option Date
}.

(** The update object a query carries: the fields to set, a possible
    [completedAt] to set, and whether [$unset.completedAt] is present. *)
Record TaskUpdateQuery := mkTaskUpdateQuery {
  uq_fields : UpdateTask;
  uq_completedAt : option Date;
  uq_unset_completedAt : bool
}.

Definition toQuery (data : UpdateTask) : TaskUpdateQuery :=
  mkTaskUpdateQuery data None false.

Definition setCompletedAt (c : option Date) (t : Task) : Task :=
  mkTask (t_title t) (t_description t) (t_projectId t) (t_assignedTo t)
         (t_status t) (t_priority t) (t_dueDate t) c (t_createdAt t) (t_updatedAt t).

Definition setStatus (s : TaskStatus) (t : Task) : Task :=
  mkTask (t_title t) (t_description t) (t_projectId t) (t_assignedTo t)
         s (t_priority t) (t_dueDate t) (t_completedAt t) (t_createdAt t) (t_updatedAt t).

(** [taskSchema.pre('save')] (Task.entity.ts:944); [modifiedStatus] is
    [this.isModified('status')]. *)
Definition taskSchema_pre_save (modifiedStatus : bool) (now : Date) (this : Task) : Task :=
  if modifiedStatus then
    if bool_decide (t_status this = completed) && negb (bool_decide (is_Some (t_completedAt this)))
    then setCompletedAt (Some now) this
    else if negb (bool_decide (t_status this = completed))
    then setCompletedAt None this
    else this
  else this.

(** [taskSchema.pre('findOneAndUpdate')] (Task.entity.ts:957). *)
Definition taskSchema_pre_findOneAndUpdate (now : Date) (update : TaskUpdateQuery)
    : TaskUpdateQuery :=
  if bool_decide (upT_status (uq_fields update) = Some completed)
     && negb (bool_decide (is_Some (uq_completedAt update)))
  then mkTaskUpdateQuery (uq_fields update) (Some now) (uq_unset_completedAt update)
  else if bool_decide (is_Some (upT_status (uq_fields update)))
          && negb (bool_decide (upT_status (uq_fields update) = Some completed))
  then mkTaskUpdateQuery (uq_fields update) None true
  else update.

(** What the database does with an update object on one document;
    [timestamps: true] refreshes [updatedAt]. *)
Definition applyTaskUpdate (q : TaskUpdateQuery) (now : Date) (t : Task) : Task :=
  mkTask (default (t_title t) (upT_title (uq_fields q)))
         (default (t_description t) (upT_description (uq_fields q)))
         (t_projectId t)
         (default (t_assignedTo t) (upT_assignedTo (uq_fields q)))
         (default (t_status t) (upT_status (uq_fields q)))
         (default (t_priority t) (upT_priority (uq_fields q)))
         (default (t_dueDate t) (upT_dueDate (uq_fields q)))
         (match uq_completedAt q with
          | Some d => Some d
          | None => if uq_unset_completedAt q then None else t_completedAt t
          end)
         (t_createdAt t) now.

(** [markAsCompleted] (Task.entity.ts:976): assign status and completedAt,
    then [save()]. *)
Definition markAsCompleted (now : Date) (this : Task) : Task :=
  taskSchema_pre_save (negb (bool_decide (t_status this = completed))) now
    (setCompletedAt (Some now) (setStatus completed this)).

(** ** TaskRepository (task.repository.ts, base.repository.ts) *)

(** CreateTask (task.types.ts). *)
Record CreateTask := mkCreateTask {
  ct_title : string;
  ct_description : string;
  ct_projectId : ObjectId;
  ct_assignedTo : ObjectId;
  ct_priority : TaskPriority;
  ct_dueDate : Date
}.

(** The document that the [$group] stage of getTaskStats produces. *)
Record TaskStats := mkTaskStats {
  ts_total : nat;
  ts_todo : nat;
  ts_inProgress : nat;
  ts_completed : nat;
  ts_overdue : nat;
  ts_high : nat;
  ts_medium : nat;
  ts_low : nat
}.

Module TaskRepository.

Definition findById (id : ObjectId) : IO (option Task) :=
  λ db, (tasks db !! id, db).

(** [findAll({_id: {$in: ids}})] *)
Definition findAllIn (ids : list ObjectId) : IO (list (ObjectId * Task)) :=
  λ db,
    (List.filter (λ kv, existsb (equals (fst kv)) ids) (map_to_list (tasks db)), db).

(** [findAll({projectId})] *)
Definition findByProject (projectId : ObjectId) : IO (list (ObjectId * Task)) :=
  λ db,
    (List.filter (λ kv, equals (t_projectId (snd kv)) projectId)
                 (map_to_list (tasks db)), db).

(** [findAll({assignedTo: userId})] *)
Definition findByUser (userId : ObjectId) : IO (list (ObjectId * Task)) :=
  λ db,
    (List.filter (λ kv, equals (t_assignedTo (snd kv)) userId)
                 (map_to_list (tasks db)), db).

(** [new this.model(data).save()]: status is left to the schema default,
    so it is not a modified path when the save hook runs. *)
Definition create (newId : ObjectId) (now : Date) (data : CreateTask)
    : IO (option Task) :=
  λ db,
    match tasks db !! newId with
    | Some _ => (None, db)
    | None =>
        let doc :=
          taskSchema_pre_save false now
            (mkTask (ct_title data) (ct_description data) (ct_projectId data)
                    (ct_assignedTo data) todo (ct_priority data) (ct_dueDate data)
                    None now now) in
        (Some doc, mkDb (users db) (projects db) (<[newId := doc]> (tasks db)))
    end.

(** [findByIdAndUpdate(id, data, {new: true, runValidators: true})]: the
    [findOneAndUpdate] hook rewrites the update object first. *)
Definition update (id : ObjectId) (data : UpdateTask) (now : Date)
    : IO (option Task) :=
  λ db,
    match tasks db !! id with
    | None => (None, db)
    | Some t =>
        let t' := applyTaskUpdate (taskSchema_pre_findOneAndUpdate now (toQuery data)) now t in
        (Some t', mkDb (users db) (projects db) (<[id := t']> (tasks db)))
    end.

(** [findByIdAndDelete(id)] *)
Definition delete (id : ObjectId) : IO bool :=
  λ db,
    match tasks db !! id with
    | None => (false, db)
    | Some _ => (true, mkDb (users db) (projects db) (base.delete id (tasks db)))
    end.

(** bulkUpdate (task.repository.ts:476):
    [updateMany({_id: {$in: taskIds}}, updates)].  No hook is registered
    for [updateMany]; the update object reaches the database as given.
    The result counts the matched documents. *)
Definition bulkUpdate (taskIds : list ObjectId) (updates : UpdateTask) (now : Date)
    : IO nat :=
  λ db,
    (length (List.filter (λ kv, existsb (equals (fst kv)) taskIds)
                         (map_to_list (tasks db))),
     mkDb (users db) (projects db)
          (map_imap (λ id t,
               Some (if existsb (equals id) taskIds
                     then applyTaskUpdate (toQuery updates) now t
                     else t))
             (tasks db))).

(** The [$match] stage of getTaskStats: each condition applies only when
    its argument is given (and not the empty string). *)
Definition statsMatch (projectId userId : option ObjectId) (t : Task) : bool :=
  (if truthy projectId then equals (t_projectId t) (default "" projectId) else true)
  && (if truthy userId then equals (t_assignedTo t) (default "" userId) else true).

Definition countIf (f : Task → bool) (l : list Task) : nat :=
  length (List.filter f l).

(** getTaskStats (task.repository.ts:424): every counter of the [$group]
    stage is a conditional sum of 1 over the matched tasks; with no matched
    task the pipeline yields nothing and the zeroed default is returned. *)
Definition getTaskStats (projectId userId : option ObjectId) (now : Date)
    : IO TaskStats :=
  λ db,
    let matched := List.filter (statsMatch projectId userId)
                               (snd <$> map_to_list (tasks db)) in
    (mkTaskStats
       (length matched)
       (countIf (λ t, bool_decide (t_status t = todo)) matched)
       (countIf (λ t, bool_decide (t_status t = in_progress)) matched)
       (countIf (λ t, bool_decide (t_status t = completed)) matched)
       (countIf (λ t, negb (bool_decide (t_status t = completed))
                      && (t_dueDate t <? now)%Z) matched)
       (countIf (λ t, bool_decide (t_priority t = high)) matched)
       (countIf (λ t, bool_decide (t_priority t = medium)) matched)
       (countIf (λ t, bool_decide (t_priority t = low)) matched), db).

End TaskRepository.

(** ** TaskService (task.service.ts) *)

(** BulkUpdateTasks (task.types.ts). *)
Record BulkUpdateTasks := mkBulkUpdateTasks {
  bu_taskIds : list ObjectId;
  bu_status : option TaskStatus;
  bu_priority : option TaskPriority;
  bu_assignedTo : option ObjectId
}.

Definition bu_updates (bulkData : BulkUpdateTasks) : UpdateTask :=
  mkUpdateTask None None (bu_assignedTo bulkData) (bu_status bulkData)
               (bu_priority bulkData) None.

Module TaskService.

(** createTask (task.service.ts:31). *)
Definition createTask (taskData : CreateTask) (userId : ObjectId)
    (newId : ObjectId) (now : Date) : IO (ServiceResponse Task) :=
  hasAccess <- ProjectRepository.userHasAccess (ct_projectId taskData) userId ;;
  if negb hasAccess
  then ret (failure PROJECT_ACCESS_DENIED)
  else
    assignedUser <- UserRepository.findById (ct_assignedTo taskData) ;;
    if negb (from_option u_isActive false assignedUser)
    then ret (failure INVALID_ASSIGNED_USER)
    else
      assignedUserHasAccess <-
        ProjectRepository.userHasAccess (ct_projectId taskData) (ct_assignedTo taskData) ;;
      if negb assignedUserHasAccess
      then ret (failure ASSIGNED_USER_NO_ACCESS)
      else
        newTask <- TaskRepository.create newId now taskData ;;
        match newTask with
        | None => ret (failure TASK_CREATION_ERROR)
        | Some _ =>
            populatedTask <- TaskRepository.findById newId ;;
            match populatedTask with
            | Some t => ret (success t)
            | None => ret (failure TASK_CREATION_ERROR)
            end
        end.

(** getTaskById (task.service.ts:102). *)
Definition getTaskById (taskId userId : ObjectId) : IO (ServiceResponse Task) :=
  task <- TaskRepository.findById taskId ;;
  match task with
  | None => ret (failure TASK_NOT_FOUND)
  | Some task =>
      hasAccess <- ProjectRepository.userHasAccess (t_projectId task) userId ;;
      if negb hasAccess
      then ret (failure TASK_ACCESS_DENIED)
      else ret (success task)
  end.

(** getProjectTasks (task.service.ts:148). *)
Definition getProjectTasks (projectId userId : ObjectId)
    : IO (ServiceResponse (list (ObjectId * Task))) :=
  hasAccess <- ProjectRepository.userHasAccess projectId userId ;;
  if negb hasAccess
  then ret (failure PROJECT_ACCESS_DENIED)
  else
    tasks <- TaskRepository.findByProject projectId ;;
    ret (success tasks).

(** getUserTasks (task.service.ts:182). *)
Definition getUserTasks (userId : ObjectId)
    : IO (ServiceResponse (list (ObjectId * Task))) :=
  tasks <- TaskRepository.findByUser userId ;;
  ret (success tasks).

(** updateTask (task.service.ts:229). *)
Definition updateTask (taskId : ObjectId) (updateData : UpdateTask)
    (userId : ObjectId) (now : Date) : IO (ServiceResponse (option Task)) :=
  task <- TaskRepository.findById taskId ;;
  match task with
  | None => ret (failure TASK_NOT_FOUND)
  | Some task =>
      hasAccess <- ProjectRepository.userHasAccess (t_projectId task) userId ;;
      if negb hasAccess
      then ret (failure TASK_ACCESS_DENIED)
      else
        assigneeError <-
          (if truthy (upT_assignedTo updateData)
           then
             let newAssignee := default "" (upT_assignedTo updateData) in
             assignedUser <- UserRepository.findById newAssignee ;;
             if negb (from_option u_isActive false assignedUser)
             then ret (Some INVALID_ASSIGNED_USER)
             else
               assignedUserHasAccess <-
                 ProjectRepository.userHasAccess (t_projectId task) newAssignee ;;
               if negb assignedUserHasAccess
               then ret (Some ASSIGNED_USER_NO_ACCESS)
               else ret None
           else ret None) ;;
        match assigneeError with
        | Some code => ret (failure code)
        | None =>
            TaskRepository.update taskId updateData now ;;;
            populatedTask <- TaskRepository.findById taskId ;;
            ret (success populatedTask)
        end
  end.

(** deleteTask (task.service.ts:313). *)
Definition deleteTask (taskId userId : ObjectId) : IO (ServiceResponse unit) :=
  task <- TaskRepository.findById taskId ;;
  match task with
  | None => ret (failure TASK_NOT_FOUND)
  | Some task =>
      hasAccess <- ProjectRepository.userHasAccess (t_projectId task) userId ;;
      if negb hasAccess
      then ret (failure TASK_ACCESS_DENIED)
      else
        TaskRepository.delete taskId ;;;
        ret (success tt)
  end.

(** The loop [for (const task of tasks)] of bulkUpdateTasks: [false] as
    soon as one task's project denies the user. *)
Fixpoint allAccessible (tasks : list (ObjectId * Task)) (userId : ObjectId)
    : IO bool :=
  match tasks with
  | [] => ret true
  | task :: rest =>
      hasAccess <- ProjectRepository.userHasAccess (t_projectId (snd task)) userId ;;
      if negb hasAccess then ret false else allAccessible rest userId
  end.

(** bulkUpdateTasks (task.service.ts:359). *)
Definition bulkUpdateTasks (bulkData : BulkUpdateTasks) (userId : ObjectId)
    (now : Date) : IO (ServiceResponse nat) :=
  tasks <- TaskRepository.findAllIn (bu_taskIds bulkData) ;;
  if negb (length tasks =? length (bu_taskIds bulkData))%nat
  then ret (failure TASKS_NOT_FOUND)
  else
    ok <- allAccessible tasks userId ;;
    if negb ok
    then ret (failure TASKS_ACCESS_DENIED)
    else
      updatedCount <- TaskRepository.bulkUpdate (bu_taskIds bulkData)
                        (bu_updates bulkData) now ;;
      ret (success updatedCount).

End TaskService.

(** ** UserService (user.service.ts) *)

Record UserRegistration := mkUserRegistration {
  reg_name : string;
  reg_email : string;
  reg_password : string;
  reg_confirmPassword : string
}.

Record UserLogin := mkUserLogin {
  login_email : string;
  login_password : string
}.

(** UserUpdate (user.types.ts). *)
Record UserUpdate := mkUserUpdate {
  uu_name : option string;
  uu_email : option string;
  uu_avatar : option string;
  uu_isActive : option bool
}.

Record UserChangePassword := mkUserChangePassword {
  chg_currentPassword : string;
  chg_newPassword : string;
  chg_confirmPassword : string
}.

(** AuthResponse (user.types.ts). *)
Record AuthResponse := mkAuthResponse {
  ar_user : SafeUser;
  ar_accessToken : string;
  ar_refreshToken : string
}.

Module UserService.
Section WithEnv.
Context `{Env}.

(** register (user.service.ts:30). *)
Definition register (userData : UserRegistration) (newId : ObjectId) (now : Date)
    : IO (ServiceResponse AuthResponse) :=
  existingUser <- UserRepository.findByEmail (reg_email userData) ;;
  match existingUser with
  | Some _ => ret (failure USER_EXISTS)
  | None =>
      newUser <- UserRepository.create newId now (reg_name userData)
                   (reg_email userData) (reg_password userData) ;;
      match newUser with
      | None => ret (failure REGISTRATION_ERROR)
      | Some newUser =>
          let tokenPayload := mkJWTPayload newId (u_email newUser) (u_role newUser) in
          let accessToken := generateToken tokenPayload in
          let refreshToken := generateRefreshToken tokenPayload in
          let safeUser := toSafeObject newId newUser in
          ret (success (mkAuthResponse safeUser accessToken refreshToken))
      end
  end.

(** login (user.service.ts:86). *)
Definition login (loginData : UserLogin) (now : Date)
    : IO (ServiceResponse AuthResponse) :=
  user <- UserRepository.findByEmailWithPassword (login_email loginData) ;;
  match user with
  | None => ret (failure INVALID_CREDENTIALS)
  | Some (userId, user) =>
      if negb (u_isActive user)
      then ret (failure USER_INACTIVE)
      else if negb (comparePassword user (login_password loginData))
      then ret (failure INVALID_CREDENTIALS)
      else
        UserRepository.updateLastLogin userId now ;;;
        let tokenPayload := mkJWTPayload userId (u_email user) (u_role user) in
        let accessToken := generateToken tokenPayload in
        let refreshToken := generateRefreshToken tokenPayload in
        let safeUser := toSafeObject userId user in
        ret (success (mkAuthResponse safeUser accessToken refreshToken))
  end.

(** refreshToken (user.service.ts:161). *)
Definition refreshToken (refreshToken : string) : IO (ServiceResponse string) :=
  match verifyRefreshToken refreshToken with
  | Decoded decoded =>
      user <- UserRepository.findById (jp_userId decoded) ;;
      match user with
      | Some user =>
          if negb (u_isActive user)
          then ret (failure INVALID_REFRESH_TOKEN)
          else
            let tokenPayload :=
              mkJWTPayload (jp_userId decoded) (u_email user) (u_role user) in
            ret (success (generateToken tokenPayload))
      | None => ret (failure INVALID_REFRESH_TOKEN)
      end
  | _ => ret (failure INVALID_REFRESH_TOKEN)
  end.

(** getUserProfile (user.service.ts:205). *)
Definition getUserProfile (userId : ObjectId) : IO (ServiceResponse SafeUser) :=
  user <- UserRepository.findById userId ;;
  match user with
  | None => ret (failure USER_NOT_FOUND)
  | Some user => ret (success (toSafeObject userId user))
  end.

(** updateProfile (user.service.ts:236). *)
Definition updateProfile (userId : ObjectId) (updateData : UserUpdate) (now : Date)
    : IO (ServiceResponse SafeUser) :=
  emailExists <-
    (if truthy (uu_email updateData)
     then UserRepository.emailExists (default "" (uu_email updateData)) (Some userId)
     else ret false) ;;
  if emailExists
  then ret (failure EMAIL_EXISTS)
  else
    updatedUser <- UserRepository.update userId
                     (mkUserUpdateQuery (uu_name updateData) (uu_email updateData)
                        (uu_avatar updateData) (uu_isActive updateData) None None)
                     now ;;
    match updatedUser with
    | None => ret (failure USER_NOT_FOUND)
    | Some updatedUser => ret (success (toSafeObject userId updatedUser))
    end.

(** changePassword (user.service.ts:281). *)
Definition changePassword (userId : ObjectId) (passwordData : UserChangePassword)
    (now : Date) : IO (ServiceResponse unit) :=
  user <- UserRepository.findById userId ;;
  match user with
  | None => ret (failure USER_NOT_FOUND)
  | Some user =>
      userWithPassword <- UserRepository.findByEmailWithPassword (u_email user) ;;
      match userWithPassword with
      | None => ret (failure USER_NOT_FOUND)
      | Some (_, userWithPassword) =>
          if negb (comparePassword userWithPassword (chg_currentPassword passwordData))
          then ret (failure INVALID_PASSWORD)
          else
            UserRepository.update userId
              (mkUserUpdateQuery None None None None
                 (Some (chg_newPassword passwordData)) None) now ;;;
            ret (success tt)
      end
  end.

End WithEnv.
End UserService.

(** ** Middleware (auth.ts) and the routes that use it *)

Record Headers := mkHeaders {
  h_authorization : option string;
  h_x_access_token : option string
}.

(** [req.user] *)
Record ReqUser := mkReqUser {
  ru_userId : ObjectId;
  ru_email : string;
  ru_role : UserRole
}.

(** What a middleware, or a whole route, does with a request: pass a value
    on ([next]), or answer with a status and an [error] string. *)
Inductive Handled (A : Type) :=
| next (a : A)
| respond (status : nat) (error : ErrorCode).

Arguments next {A} a.
Arguments respond {A} status error.

Module Middleware.
Section WithEnv.
Context `{Env}.

(** The token expression of [authenticate] (auth.ts:25). *)
Definition tokenOf (headers : Headers) : option string :=
  match h_authorization headers with
  | Some authHeader =>
      if negb (String.eqb authHeader "") && String.prefix "Bearer " authHeader
      then Some (String.substring 7 (String.length authHeader - 7) authHeader)
      else h_x_access_token headers
  | None => h_x_access_token headers
  end.

(** authenticate (auth.ts:22). *)
Definition authenticate (headers : Headers) (now : Date) : IO (Handled ReqUser) :=
  let token := tokenOf headers in
  if negb (truthy token)
  then ret (respond 401 MISSING_TOKEN)
  else
    match jwt_verify (default "" token) jwt_secret with
    | TokenExpiredError => ret (respond 401 TOKEN_EXPIRED)
    | JsonWebTokenError => ret (respond 401 INVALID_TOKEN)
    | Decoded decoded =>
        user <- UserRepository.findById (jp_userId decoded) ;;
        if negb (from_option u_isActive false user)
        then ret (respond 401 INVALID_USER)
        else
          UserRepository.updateLastLogin (jp_userId decoded) now ;;;
          ret (next (mkReqUser (jp_userId decoded) (jp_email decoded) (jp_role decoded)))
    end.

(** requireProjectMember (auth.ts:199). *)
Definition requireProjectMember (reqUser : option ReqUser) (projectId : ObjectId)
    : IO (Handled unit) :=
  match reqUser with
  | None => ret (respond 401 NOT_AUTHENTICATED)
  | Some reqUser =>
      if bool_decide (ru_role reqUser = role_admin)
      then ret (next tt)
      else
        project <- ProjectRepository.findById projectId ;;
        match project with
        | None => ret (respond 404 PROJECT_NOT_FOUND)
        | Some project =>
            if negb (isOwner project (ru_userId reqUser))
               && negb (isMember project (ru_userId reqUser))
            then ret (respond 403 PROJECT_ACCESS_DENIED)
            else ret (next tt)
        end
  end.

(** optionalAuth (auth.ts:93): always calls [next]; the result is the
    [req.user] it leaves behind. *)
Definition optionalAuth (headers : Headers) : IO (option ReqUser) :=
  let token := tokenOf headers in
  if negb (truthy token)
  then ret None
  else
    match jwt_verify (default "" token) jwt_secret with
    | Decoded decoded =>
        user <- UserRepository.findById (jp_userId decoded) ;;
        if from_option u_isActive false user
        then ret (Some (mkReqUser (jp_userId decoded) (jp_email decoded) (jp_role decoded)))
        else ret None
    | _ => ret None
    end.

(** authorize (auth.ts:123). *)
Definition authorize (roles : list UserRole) (reqUser : option ReqUser) : Handled unit :=
  match reqUser with
  | None => respond 401 NOT_AUTHENTICATED
  | Some reqUser =>
      if negb (existsb (λ r, bool_decide (r = ru_role reqUser)) roles)
      then respond 403 INSUFFICIENT_PERMISSIONS
      else next tt
  end.

(** requireAdmin, requireUser (auth.ts:148). *)
Definition requireAdmin : option ReqUser → Handled unit := authorize [role_admin].

Definition requireUser : option ReqUser → Handled unit := authorize [role_user; role_admin].

End WithEnv.
End Middleware.

(** The routes of project.routes.ts and task.routes.ts: [authenticate]
    first, then (project routes with an id) [requireProjectMember], then the
    controller, which calls the service with [req.user.userId]. *)
Module Routes.
Section WithEnv.
Context `{Env}.

Definition authenticated {A} (headers : Headers) (now : Date)
    (controller : ReqUser → IO (ServiceResponse A))
    : IO (Handled (ServiceResponse A)) :=
  auth <- Middleware.authenticate headers now ;;
  match auth with
  | respond status error => ret (respond status error)
  | next reqUser =>
      result <- controller reqUser ;;
      ret (next result)
  end.

Definition projectMember {A} (headers : Headers) (projectId : ObjectId) (now : Date)
    (controller : ReqUser → IO (ServiceResponse A))
    : IO (Handled (ServiceResponse A)) :=
  auth <- Middleware.authenticate headers now ;;
  match auth with
  | respond status error => ret (respond status error)
  | next reqUser =>
      member <- Middleware.requireProjectMember (Some reqUser) projectId ;;
      match member with
      | respond status error => ret (respond status error)
      | next _ =>
          result <- controller reqUser ;;
          ret (next result)
      end
  end.

(** [router.get('/:id', validateIdParam, requireProjectMember,
    projectController.getProjectById)] *)
Definition GET_project (headers : Headers) (id : ObjectId) (now : Date) :=
  projectMember headers id now
    (λ reqUser, ProjectService.getProjectById id (Some (ru_userId reqUser))).

(** [router.put('/:id', ..., requireProjectMember, projectController.updateProject)] *)
Definition PUT_project (headers : Headers) (id : ObjectId) (body : UpdateProject)
    (now : Date) :=
  projectMember headers id now
    (λ reqUser, ProjectService.updateProject id body (ru_userId reqUser) now).

(** [router.delete('/:id/members', ..., requireProjectMember,
    projectController.removeMember)] *)
Definition DELETE_project_members (headers : Headers) (id memberUserId : ObjectId)
    (now : Date) :=
  projectMember headers id now
    (λ reqUser, ProjectService.removeMember id memberUserId (ru_userId reqUser) now).

(** [router.get('/:id', validateIdParam, taskController.getTaskById)] *)
Definition GET_task (headers : Headers) (id : ObjectId) (now : Date) :=
  authenticated headers now
    (λ reqUser, TaskService.getTaskById id (ru_userId reqUser)).

End WithEnv.
End Routes.

(** ** requireOwnership (auth.ts:154) *)

(** The answer of requireOwnership: pass the request on, or respond with a
    status and an [error] string. *)
Inductive OwnershipAnswer :=
| own_next
| own_respond (status : nat) (error : string).

(** [params] is [req.params]: the value of each named URL parameter, if any. *)
Definition requireOwnership (resourceParam : string) (reqUser : option ReqUser)
    (params : string → option string) : OwnershipAnswer :=
  match reqUser with
  | None => own_respond 401 "NOT_AUTHENTICATED"
  | Some reqUser =>
      let resourceId := params resourceParam in
      let userId := ru_userId reqUser in
      if bool_decide (ru_role reqUser = role_admin)
      then own_next
      else if (String.eqb resourceParam "id" || String.eqb resourceParam "userId")
              && negb (bool_decide (resourceId = Some userId))
      then own_respond 403 "ACCESS_DENIED"
      else own_next
  end.

(** ** Pagination helpers (helpers.ts) *)

(** PaginationMeta (common.types.ts). *)
Record PaginationMeta := mkPaginationMeta {
  pm_page : Z;
  pm_limit : Z;
  pm_total : Z;
  pm_pages : Z;
  pm_hasNextPage : bool;
  pm_hasPrevPage : bool
}.

Module Helpers.

(** [Math.ceil(total / limit)] on whole numbers, for a positive [limit]. *)
Definition ceilDiv (total limit : Z) : Z := (total + limit - 1) / limit.

(** createPaginationMeta (helpers.ts:31). *)
Definition createPaginationMeta (page limit total : Z) : PaginationMeta :=
  let pages := ceilDiv total limit in
  mkPaginationMeta page limit total pages (page <? pages)%Z (1 <? page)%Z.

(** calculateSkip (helpers.ts:51). *)
Definition calculateSkip (page limit : Z) : Z := (page - 1) * limit.

End Helpers.

(** ** The calls a client can make on the services *)

Inductive ServiceCall :=
| RegisterCall (userData : UserRegistration) (newId : ObjectId)
| LoginCall (loginData : UserLogin)
| RefreshTokenCall (token : string)
| GetUserProfileCall (userId : ObjectId)
| UpdateProfileCall (userId : ObjectId) (updateData : UserUpdate)
| ChangePasswordCall (userId : ObjectId) (passwordData : UserChangePassword)
| CreateProjectCall (projectData : CreateProject) (ownerId newId : ObjectId)
| GetProjectByIdCall (projectId : ObjectId) (userId : option ObjectId)
| UpdateProjectCall (projectId : ObjectId) (updateData : UpdateProject) (userId : ObjectId)
| DeleteProjectCall (projectId userId : ObjectId)
| AddMemberCall (projectId memberUserId requestUserId : ObjectId)
| RemoveMemberCall (projectId memberUserId requestUserId : ObjectId)
| CreateTaskCall (taskData : CreateTask) (userId newId : ObjectId)
| GetTaskByIdCall (taskId userId : ObjectId)
| GetProjectTasksCall (projectId userId : ObjectId)
| GetUserTasksCall (userId : ObjectId)
| UpdateTaskCall (taskId : ObjectId) (updateData : UpdateTask) (userId : ObjectId)
| DeleteTaskCall (taskId userId : ObjectId)
| BulkUpdateTasksCall (bulkData : BulkUpdateTasks) (userId : ObjectId).

(** The database after a call. *)
Definition perform `{Env} (call : ServiceCall) (now : Date) (db : Db) : Db :=
  match call with
  | RegisterCall userData newId => snd (UserService.register userData newId now db)
  | LoginCall loginData => snd (UserService.login loginData now db)
  | RefreshTokenCall token => snd (UserService.refreshToken token db)
  | GetUserProfileCall userId => snd (UserService.getUserProfile userId db)
  | UpdateProfileCall userId updateData =>
      snd (UserService.updateProfile userId updateData now db)
  | ChangePasswordCall userId passwordData =>
      snd (UserService.changePassword userId passwordData now db)
  | CreateProjectCall projectData ownerId newId =>
      snd (ProjectService.createProject projectData ownerId newId now db)
  | GetProjectByIdCall projectId userId =>
      snd (ProjectService.getProjectById projectId userId db)
  | UpdateProjectCall projectId updateData userId =>
      snd (ProjectService.updateProject projectId updateData userId now db)
  | DeleteProjectCall projectId userId =>
      snd (ProjectService.deleteProject projectId userId db)
  | AddMemberCall projectId memberUserId requestUserId =>
      snd (ProjectService.addMember projectId memberUserId requestUserId now db)
  | RemoveMemberCall projectId memberUserId requestUserId =>
      snd (ProjectService.removeMember projectId memberUserId requestUserId now db)
  | CreateTaskCall taskData userId newId =>
      snd (TaskService.createTask taskData userId newId now db)
  | GetTaskByIdCall taskId userId => snd (TaskService.getTaskById taskId userId db)
  | GetProjectTasksCall projectId userId =>
      snd (TaskService.getProjectTasks projectId userId db)
  | GetUserTasksCall userId => snd (TaskService.getUserTasks userId db)
  | UpdateTaskCall taskId updateData userId =>
      snd (TaskService.updateTask taskId updateData userId now db)
  | DeleteTaskCall taskId userId => snd (TaskService.deleteTask taskId userId db)
  | BulkUpdateTasksCall bulkData userId =>
      snd (TaskService.bulkUpdateTasks bulkData userId now db)
  end.

(** Registration, login, profile update (which covers deactivation) and
    password change. *)
Definition mutatesUsers (call : ServiceCall) : bool :=
  match call with
  | RegisterCall _ _ | LoginCall _ | UpdateProfileCall _ _ | ChangePasswordCall _ _ => true
  | _ => false
  end.

(** A user record after [{lastLogin: now}] was written to it. *)
Definition stampLastLogin (now : Date) (u : User) : User :=
  mkUser (u_name u) (u_email u) (u_password u) (u_role u) (u_avatar u)
         (u_isActive u) (Some now) (u_createdAt u) now.

(** The calls of the project service that write, and those of the task
    service that write. *)
Definition mutatesProjects (call : ServiceCall) : bool :=
  match call with
  | CreateProjectCall _ _ _ | UpdateProjectCall _ _ _ | DeleteProjectCall _ _
  | AddMemberCall _ _ _ | RemoveMemberCall _ _ _ => true
  | _ => false
  end.

Definition mutatesTasks (call : ServiceCall) : bool :=
  match call with
  | CreateTaskCall _ _ _ | UpdateTaskCall _ _ _ | DeleteTaskCall _ _
  | BulkUpdateTasksCall _ _ => true
  | _ => false
  end.

(** ** Access to a project, as the specification words it *)

(** A user "has access" to the project stored under [projectId] iff the
    project exists and the user is its owner or one of its members. *)
Definition canAccess (db : Db) (projectId userId : ObjectId) : Prop :=
  ∃ p, projects db !! projectId = Some p ∧ (userId = p_owner p ∨ userId ∈ p_members p).

(** The invariant on a task: completedAt is set iff the status is
    completed. *)
Definition completedAt_invariant (t : Task) : Prop :=
  is_Some (t_completedAt t) ↔ t_status t = completed.

(** [user && user.isActive]: the id names a stored, active user. *)
Definition activeUser (db : Db) (userId : ObjectId) : Prop :=
  ∃ u, users db !! userId = Some u ∧ u_isActive u = true.

(** No two stored users share an email (the unique index on email). *)
Definition emailUnique (db : Db) : Prop :=
  ∀ id1 u1 id2 u2,
    users db !! id1 = Some u1 → users db !! id2 = Some u2 →
    u_email u1 = u_email u2 → id1 = id2.

(** ** A small database used for the concrete evaluations *)

Module Sample.

Definition ann := mkUser "Ann" "ann@x.com" "$2a$ann" role_user None true None 0 0.
Definition bob := mkUser "Bob" "bob@x.com" "$2a$bob" role_user None true None 0 0.
Definition cat := mkUser "Cat" "cat@x.com" "$2a$cat" role_user None true None 0 0.
Definition dan := mkUser "Dan" "dan@x.com" "$2a$dan" role_admin None true None 0 0.

(** Project P: owner A (Ann), members B (Bob). *)
Definition proj := mkProject "Roadmap" "Quarterly roadmap" "A" ["B"] ps_active 1 1.

(** Task T of project P, assigned to B, not yet started. *)
Definition task := mkTask "Draft" "Write the draft" "P" "B" todo medium 100 None 2 2.

Definition db : Db :=
  mkDb (<["A" := ann]> (<["B" := bob]> (<["C" := cat]> (<["D" := dan]> ∅))))
       (<["P" := proj]> ∅)
       (<["T" := task]> ∅).

(** A stand-in for the libraries: a token is the user id it was signed
    for, prefixed by the secret. *)
Definition env : Env :=
  mkEnv (λ password, "$2a$" +:+ password)
        (λ candidate hash, String.eqb ("$2a$" +:+ candidate) hash)
        (λ payload secret, secret +:+ ":" +:+ jp_userId payload)
        (λ token secret,
           if String.eqb token (secret +:+ ":D")
           then Decoded (mkJWTPayload "D" "dan@x.com" role_admin)
           else if String.eqb token (secret +:+ ":B")
           then Decoded (mkJWTPayload "B" "bob@x.com" role_user)
           else if String.eqb token (secret +:+ ":C")
           then Decoded (mkJWTPayload "C" "cat@x.com" role_user)
           else JsonWebTokenError)
        "access-secret" "refresh-secret".

Definition bearer (userId : string) : Headers :=
  mkHeaders (Some ("Bearer access-secret:" +:+ userId)) None.

End Sample.

(** * Properties *)

(** ** Basic facts about the entity methods and the monad *)

Lemma equals_eq (a b : ObjectId) : equals a b = true ↔ a = b.
Proof. unfold equals. apply String.eqb_eq. Qed.

Lemma equals_neq (a b : ObjectId) : equals a b = false ↔ a ≠ b.
Proof. unfold equals. apply String.eqb_neq. Qed.

Lemma isOwner_true (p : Project) (u : ObjectId) : isOwner p u = true ↔ u = p_owner p.
Proof. unfold isOwner. rewrite equals_eq. split; congruence. Qed.

Lemma isOwner_false (p : Project) (u : ObjectId) : isOwner p u = false ↔ u ≠ p_owner p.
Proof. unfold isOwner. rewrite equals_neq. split; congruence. Qed.

Lemma isMember_true (p : Project) (u : ObjectId) : isMember p u = true ↔ u ∈ p_members p.
Proof.
  unfold isMember. rewrite existsb_exists. split.
  - intros (m & Hin & Heq). apply equals_eq in Heq. subst m.
    by apply list_elem_of_In.
  - intros Hin. exists u. split; [by apply list_elem_of_In | by apply equals_eq].
Qed.

Lemma isMember_false (p : Project) (u : ObjectId) : isMember p u = false ↔ u ∉ p_members p.
Proof.
  rewrite <- isMember_true. destruct (isMember p u); split; congruence.
Qed.

Lemma truthy_Some (s : string) : s ≠ "" → truthy (Some s) = true.
Proof. intros Hs. simpl. by apply String.eqb_neq in Hs as ->. Qed.

(** The access decision reads the project and touches nothing. *)
Lemma userHasAccess_run (db : Db) (projectId userId : ObjectId) :
  ProjectRepository.userHasAccess projectId userId db =
  (match projects db !! projectId with
   | Some p => isOwner p userId || isMember p userId
   | None => false
   end, db).
Proof.
  unfold ProjectRepository.userHasAccess, ProjectRepository.findById, bind, ret.
  simpl. by destruct (projects db !! projectId).
Qed.

Lemma userHasAccess_snd (db : Db) (projectId userId : ObjectId) :
  snd (ProjectRepository.userHasAccess projectId userId db) = db.
Proof. by rewrite userHasAccess_run. Qed.

Lemma userHasAccess_canAccess (db : Db) (projectId userId : ObjectId) :
  fst (ProjectRepository.userHasAccess projectId userId db) = true
  ↔ canAccess db projectId userId.
Proof.
  rewrite userHasAccess_run. simpl. unfold canAccess.
  destruct (projects db !! projectId) as [p|] eqn:Hp.
  - rewrite orb_true_iff, isOwner_true, isMember_true. split.
    + intros Hacc. by exists p.
    + intros (p' & Hp' & Hacc). by simplify_eq.
  - split; [done | by intros (p' & Hp' & _)].
Qed.

Lemma canAccess_cases (db : Db) (projectId userId : ObjectId) :
  canAccess db projectId userId ∨ ¬ canAccess db projectId userId.
Proof.
  rewrite <- userHasAccess_canAccess.
  destruct (fst (ProjectRepository.userHasAccess projectId userId db)); [by left | by right].
Qed.

Lemma userHasAccess_denied (db : Db) (projectId userId : ObjectId) :
  ¬ canAccess db projectId userId →
  ProjectRepository.userHasAccess projectId userId db = (false, db).
Proof.
  intros Hno. rewrite <- userHasAccess_canAccess in Hno.
  rewrite userHasAccess_run in *. simpl in Hno.
  by apply not_true_is_false in Hno as ->.
Qed.

Lemma userHasAccess_granted (db : Db) (projectId userId : ObjectId) :
  canAccess db projectId userId →
  ProjectRepository.userHasAccess projectId userId db = (true, db).
Proof.
  intros Hyes. rewrite <- userHasAccess_canAccess in Hyes.
  rewrite userHasAccess_run in *. simpl in Hyes. by rewrite Hyes.
Qed.

(** Unfolds a service down to the collections it reads and writes. *)
Ltac run_service :=
  unfold ProjectService.getProjectById, ProjectService.updateProject,
    ProjectService.deleteProject, ProjectService.addMember,
    ProjectService.removeMember, ProjectService.createProject,
    TaskService.createTask, TaskService.getTaskById, TaskService.getProjectTasks,
    TaskService.getUserTasks, TaskService.updateTask, TaskService.deleteTask,
    TaskService.bulkUpdateTasks,
    ProjectRepository.findById, ProjectRepository.update, ProjectRepository.delete,
    ProjectRepository.addMember, ProjectRepository.removeMember,
    ProjectRepository.create,
    TaskRepository.findById, TaskRepository.update, TaskRepository.delete,
    TaskRepository.create, TaskRepository.findByProject, TaskRepository.findByUser,
    UserRepository.findById,
    bind, ret; simpl.

(** ** C1: the project-access decision *)



(** ** C4, C6, C10: owner-only project operations and member removal *)

(** The guards of [removeMember] in the order the service evaluates them. *)
Lemma removeMember_run (db : Db) (pid target caller : ObjectId) (p : Project) (now : Date) :
  projects db !! pid = Some p →
  ProjectService.removeMember pid target caller now db =
  if negb (isOwner p caller) && negb (String.eqb caller target)
  then (failure INSUFFICIENT_PERMISSIONS, db)
  else if isOwner p target then (failure CANNOT_REMOVE_OWNER, db)
  else if negb (isMember p target) then (failure NOT_A_MEMBER, db)
  else
    let p' := ProjectRepository.setMembers
                (ProjectRepository.pull target (p_members p)) now p in
    (success (Some p'),
     mkDb (users db) (<[pid := p']> (projects db)) (tasks db)).
Proof.
  intros Hp. run_service. rewrite Hp. simpl.
  destruct (negb (isOwner p caller) && negb (String.eqb caller target)); [done|].
  destruct (isOwner p target); [done|].
  destruct (negb (isMember p target)); [done|].
  simpl. by rewrite Hp.
Qed.

(** C4 (as amended).  A remove-member request whose target is the owner of
    the project always fails and leaves the database as it was: with
    CANNOT_REMOVE_OWNER when the caller is the owner, and with
    INSUFFICIENT_PERMISSIONS for every other caller, whose request is
    refused by the permission guard before the owner guard is reached. *)
Theorem C4_remove_owner_always_fails
    (db : Db) (pid : ObjectId) (p : Project) (caller : ObjectId) (now : Date) :
  projects db !! pid = Some p →
  (caller = p_owner p →
     ProjectService.removeMember pid (p_owner p) caller now db
     = (failure CANNOT_REMOVE_OWNER, db))
  ∧ (caller ≠ p_owner p →
     ProjectService.removeMember pid (p_owner p) caller now db
     = (failure INSUFFICIENT_PERMISSIONS, db)).
Proof.
  intros Hp. rewrite (removeMember_run db pid (p_owner p) caller p now Hp).
  split.
  - intros ->.
    assert (Ho : isOwner p (p_owner p) = true) by by apply isOwner_true.
    by rewrite Ho.
  - intros Hne.
    assert (Ho : isOwner p caller = false) by by apply isOwner_false.
    assert (Hs : String.eqb caller (p_owner p) = false) by by apply String.eqb_neq.
    by rewrite Ho, Hs.
Qed.

Lemma C4_remove_owner_always_fails_witness :
  projects Sample.db !! "P" = Some Sample.proj
  ∧ ProjectService.removeMember "P" "A" "A" 9 Sample.db
    = (failure CANNOT_REMOVE_OWNER, Sample.db)
  ∧ ProjectService.removeMember "P" "A" "D" 9 Sample.db
    = (failure INSUFFICIENT_PERMISSIONS, Sample.db).
Proof.
  assert (Hp : projects Sample.db !! "P" = Some Sample.proj) by reflexivity.
  split; [exact Hp|]. split.
  - exact (proj1 (C4_remove_owner_always_fails Sample.db "P" Sample.proj "A" 9 Hp) eq_refl).
  - refine (proj2 (C4_remove_owner_always_fails Sample.db "P" Sample.proj "D" 9 Hp) _).
    discriminate.
Defined.

(** C4 as stated fails: member B asks to remove owner A from project P and
    is answered INSUFFICIENT_PERMISSIONS, not CANNOT_REMOVE_OWNER. *)
Lemma C4_counterexample :
  projects Sample.db !! "P" = Some Sample.proj
  ∧ p_owner Sample.proj = "A"
  ∧ "B" ∈ p_members Sample.proj
  ∧ fst (ProjectService.removeMember "P" "A" "B" 9 Sample.db)
    = failure INSUFFICIENT_PERMISSIONS
  ∧ fst (ProjectService.removeMember "P" "A" "B" 9 Sample.db)
    ≠ failure CANNOT_REMOVE_OWNER.
Proof.
  split; [reflexivity|]. split; [reflexivity|].
  split; [apply list_elem_of_In; by left|].
  split; [by vm_compute | by vm_compute].
Qed.



(** C10.  When the caller is authorised (the owner, or the target removing
    itself) and the target is neither the owner nor a member, remove-member
    fails with NOT_A_MEMBER and the database is left as it was.  Whatever
    the caller and target, the member list changes only on a successful
    call, whose target is a member, and the change is the removal of that
    member. *)
Theorem C10_remove_non_member
    (db : Db) (pid : ObjectId) (p : Project) (target caller : ObjectId) (now : Date) :
  projects db !! pid = Some p →
  ((caller = p_owner p ∨ caller = target) →
     target ≠ p_owner p → target ∉ p_members p →
     ProjectService.removeMember pid target caller now db = (failure NOT_A_MEMBER, db))
  ∧ (snd (ProjectService.removeMember pid target caller now db) = db
     ∨ (target ∈ p_members p
        ∧ (∃ r, fst (ProjectService.removeMember pid target caller now db) = success r)
        ∧ p_members <$> projects (snd (ProjectService.removeMember pid target caller now db)) !! pid
          = Some (List.filter (λ m, negb (equals m target)) (p_members p)))).
Proof.
  intros Hp. rewrite (removeMember_run db pid target caller p now Hp).
  split.
  - intros Hauth Hno Hnm.
    assert (Hg : negb (isOwner p caller) && negb (String.eqb caller target) = false).
    { destruct Hauth as [->| ->].
      - assert (Ho : isOwner p (p_owner p) = true) by by apply isOwner_true.
        by rewrite Ho.
      - by rewrite String.eqb_refl, andb_false_r. }
    apply isOwner_false in Hno. apply isMember_false in Hnm.
    by rewrite Hg, Hno, Hnm.
  - destruct (negb (isOwner p caller) && negb (String.eqb caller target)); [by left|].
    destruct (isOwner p target); [by left|].
    destruct (isMember p target) eqn:Hm; simpl; [|by left].
    right. split; [by apply isMember_true|]. split; [by eexists|].
    by rewrite lookup_insert_eq.
Qed.

Lemma C10_remove_non_member_witness :
  projects Sample.db !! "P" = Some Sample.proj
  ∧ ProjectService.removeMember "P" "C" "A" 9 Sample.db = (failure NOT_A_MEMBER, Sample.db)
  ∧ ProjectService.removeMember "P" "C" "C" 9 Sample.db = (failure NOT_A_MEMBER, Sample.db).
Proof.
  assert (Hp : projects Sample.db !! "P" = Some Sample.proj) by reflexivity.
  assert (Hne : "C" ≠ p_owner Sample.proj) by discriminate.
  assert (Hnm : "C" ∉ p_members Sample.proj).
  { simpl. intros Hin. apply list_elem_of_In in Hin. destruct Hin as [Heq|[]].
    discriminate. }
  split; [exact Hp|]. split.
  - exact (proj1 (C10_remove_non_member Sample.db "P" Sample.proj "C" "A" 9 Hp)
             (or_introl eq_refl) Hne Hnm).
  - exact (proj1 (C10_remove_non_member Sample.db "P" Sample.proj "C" "C" 9 Hp)
             (or_intror eq_refl) Hne Hnm).
Defined.

(** ** C3: the owner and the member list *)

(** A project that [createProject] returns has the caller as owner and
    exactly the proposed ids as members. *)
Lemma createProject_success (db : Db) (data : CreateProject) (ownerId newId : ObjectId)
    (now : Date) (p : Project) :
  fst (ProjectService.createProject data ownerId newId now db) = success p →
  p_owner p = ownerId
  ∧ p_members p = default [] (cp_members data)
  ∧ projects (snd (ProjectService.createProject data ownerId newId now db)) !! newId = Some p.
Proof.
  run_service. unfold UserRepository.findAllActiveIn.
  destruct (0 <? length (default [] (cp_members data)))%nat; simpl.
  - destruct (negb _); simpl; [intros [=]|].
    destruct (projects db !! newId) eqn:Hnew; simpl; [intros [=]|].
    rewrite lookup_insert_eq. simpl. intros [= <-]. simpl.
    by rewrite lookup_insert_eq.
  - destruct (projects db !! newId) eqn:Hnew; simpl; [intros [=]|].
    rewrite lookup_insert_eq. simpl. intros [= <-]. simpl.
    by rewrite lookup_insert_eq.
Qed.

(** Add-member never puts the owner into the member list. *)
Lemma addMember_keeps_owner_out (db : Db) (pid member caller : ObjectId) (now : Date)
    (p p' : Project) :
  projects db !! pid = Some p →
  p_owner p ∉ p_members p →
  projects (snd (ProjectService.addMember pid member caller now db)) !! pid = Some p' →
  p_owner p' = p_owner p ∧ p_owner p' ∉ p_members p'.
Proof.
  intros Hp Hinv. run_service. rewrite Hp. simpl.
  destruct (negb (isOwner p caller)); simpl; [by rewrite Hp; intros [= <-]|].
  destruct (negb _); simpl; [by rewrite Hp; intros [= <-]|].
  destruct (isMember p member) eqn:Hm; simpl; [by rewrite Hp; intros [= <-]|].
  destruct (isOwner p member) eqn:Ho; simpl; [by rewrite Hp; intros [= <-]|].
  rewrite Hp. simpl. rewrite lookup_insert_eq. intros [= <-]. simpl.
  split; [done|]. unfold ProjectRepository.addToSet.
  destruct (existsb _ _); [done|].
  rewrite elem_of_app, list_elem_of_singleton.
  apply isOwner_false in Ho. intros [Hin|Heq]; [by apply Hinv | by apply Ho].
Qed.

(** Remove-member never puts the owner into the member list. *)
Lemma removeMember_keeps_owner_out (db : Db) (pid member caller : ObjectId) (now : Date)
    (p p' : Project) :
  projects db !! pid = Some p →
  p_owner p ∉ p_members p →
  projects (snd (ProjectService.removeMember pid member caller now db)) !! pid = Some p' →
  p_owner p' = p_owner p ∧ p_owner p' ∉ p_members p'.
Proof.
  intros Hp Hinv. rewrite (removeMember_run db pid member caller p now Hp).
  destruct (negb (isOwner p caller) && negb (String.eqb caller member)); simpl;
    [by rewrite Hp; intros [= <-]|].
  destruct (isOwner p member); simpl; [by rewrite Hp; intros [= <-]|].
  destruct (negb (isMember p member)); simpl; [by rewrite Hp; intros [= <-]|].
  rewrite lookup_insert_eq. intros [= <-]. simpl. split; [done|].
  unfold ProjectRepository.pull. intros Hin.
  apply list_elem_of_In, filter_In in Hin as [Hin _].
  by apply Hinv, list_elem_of_In.
Qed.

(** C3 (the code at the failing input).  User A creates a project and lists
    A and B as members: the project is stored with owner A and members
    [A; B], so the owner is an element of the member list. *)
Theorem C3_creator_stored_as_member :
  ∃ p,
    ProjectService.createProject
      (mkCreateProject "Website" "New website" (Some ["A"; "B"])) "A" "Q" 9 Sample.db
    = (success p,
       mkDb (users Sample.db) (<["Q" := p]> (projects Sample.db)) (tasks Sample.db))
    ∧ p_owner p = "A"
    ∧ p_members p = ["A"; "B"]
    ∧ p_owner p ∈ p_members p.
Proof.
  eexists. split; [by vm_compute|]. split; [done|]. split; [done|].
  apply list_elem_of_In. by left.
Qed.

(** ** C2: completedAt follows the status *)

(** The [findOneAndUpdate] hook only adds to the update object. *)
Lemma update_hook_fields (now : Date) (q : TaskUpdateQuery) :
  uq_fields (taskSchema_pre_findOneAndUpdate now q) = uq_fields q.
Proof.
  unfold taskSchema_pre_findOneAndUpdate.
  destruct (_ && _); [done|]. by destruct (_ && _).
Qed.

(** The [findOneAndUpdate] hook: an update that carries a status leaves the
    task with completedAt set iff that status is completed. *)
Lemma update_hook_establishes_invariant (now : Date) (data : UpdateTask) (t : Task)
    (s : TaskStatus) :
  upT_status data = Some s →
  completedAt_invariant
    (applyTaskUpdate (taskSchema_pre_findOneAndUpdate now (toQuery data)) now t).
Proof.
  intros Hs. unfold completedAt_invariant, taskSchema_pre_findOneAndUpdate, toQuery.
  simpl. rewrite Hs. destruct s; simpl; rewrite ?Hs; simpl; split; intros Hx;
    try done; by (destruct Hx || eexists).
Qed.

(** An update without a status keeps status and completedAt as they are. *)
Lemma update_hook_preserves_invariant (now : Date) (data : UpdateTask) (t : Task) :
  upT_status data = None →
  completedAt_invariant t →
  completedAt_invariant
    (applyTaskUpdate (taskSchema_pre_findOneAndUpdate now (toQuery data)) now t).
Proof.
  intros Hs. unfold completedAt_invariant, taskSchema_pre_findOneAndUpdate, toQuery.
  simpl. rewrite Hs.
  repeat case_bool_decide; simpl; rewrite ?Hs; try done;
    exfalso; by eapply is_Some_None.
Qed.

(** The [save] hook, when the status is a modified path. *)
Lemma save_hook_establishes_invariant (now : Date) (t : Task) :
  completedAt_invariant (taskSchema_pre_save true now t).
Proof.
  unfold completedAt_invariant, taskSchema_pre_save.
  destruct t as [? ? ? ? st ? ? c ? ?]. simpl.
  destruct st, c; simpl; split; intros Hx; try done;
    by (destruct Hx || eexists).
Qed.

Lemma markAsCompleted_establishes_invariant (now : Date) (t : Task) :
  completedAt_invariant (markAsCompleted now t)
  ∧ t_status (markAsCompleted now t) = completed.
Proof.
  unfold completedAt_invariant, markAsCompleted, taskSchema_pre_save.
  destruct t as [? ? ? ? st ? ? c ? ?]. simpl.
  destruct st; simpl; split; try split; try done; by eexists.
Qed.

(** The single-task update of the service: when it changes the status, the
    stored task satisfies the invariant afterwards. *)
Lemma updateTask_establishes_invariant (db : Db) (taskId : ObjectId) (data : UpdateTask)
    (userId : ObjectId) (now : Date) (s : TaskStatus) (r : option Task) :
  upT_status data = Some s →
  fst (TaskService.updateTask taskId data userId now db) = success r →
  ∃ t', r = Some t'
        ∧ tasks (snd (TaskService.updateTask taskId data userId now db)) !! taskId = Some t'
        ∧ t_status t' = s
        ∧ completedAt_invariant t'.
Proof.
  intros Hs. unfold TaskService.updateTask, TaskRepository.findById, bind. simpl.
  destruct (tasks db !! taskId) as [t|] eqn:Ht; simpl; [|intros [=]].
  rewrite !userHasAccess_run. simpl.
  destruct (negb _); simpl; [intros [=]|].
  assert (Hupd : ∀ t',
    t' = applyTaskUpdate (taskSchema_pre_findOneAndUpdate now (toQuery data)) now t →
    t_status t' = s ∧ completedAt_invariant t').
  { intros t' ->. split.
    - simpl. rewrite update_hook_fields. simpl. by rewrite Hs.
    - by eapply update_hook_establishes_invariant. }
  destruct (truthy (upT_assignedTo data)); simpl.
  - unfold UserRepository.findById. simpl.
    destruct (negb _); simpl; [intros [=]|].
    rewrite !userHasAccess_run. simpl.
    destruct (negb _); simpl; [intros [=]|].
    unfold TaskRepository.update. simpl. rewrite Ht. simpl.
    rewrite lookup_insert_eq. intros [= <-]. eexists. split; [done|].
    split; [done|]. by apply Hupd.
  - unfold TaskRepository.update. simpl. rewrite Ht. simpl.
    rewrite lookup_insert_eq. intros [= <-]. eexists. split; [done|].
    split; [done|]. by apply Hupd.
Qed.

(** The bulk update hands the update object to the database as it is: the
    status is overwritten and completedAt is not touched. *)
Lemma bulkUpdate_keeps_completedAt (updates : UpdateTask) (now : Date) (t : Task) :
  t_completedAt (applyTaskUpdate (toQuery updates) now t) = t_completedAt t
  ∧ t_status (applyTaskUpdate (toQuery updates) now t)
    = default (t_status t) (upT_status updates).
Proof. done. Qed.

(** C2 (the code at the failing input).  Owner A marks task T (status todo,
    completedAt unset) completed at time 9.  Through the single-task update
    the task ends with status completed and completedAt = 9.  Through the
    bulk update it ends with status completed and completedAt still unset;
    and a bulk update that reopens the completed task at time 12 leaves
    completedAt = 9 in place. *)
Theorem C2_bulk_update_bypasses_completedAt :
  let complete := mkUpdateTask None None None (Some completed) None None in
  let single := TaskService.updateTask "T" complete "A" 9 Sample.db in
  let bulk :=
    TaskService.bulkUpdateTasks (mkBulkUpdateTasks ["T"] (Some completed) None None)
      "A" 9 Sample.db in
  let reopened :=
    TaskService.bulkUpdateTasks (mkBulkUpdateTasks ["T"] (Some todo) None None)
      "A" 12 (snd single) in
  tasks Sample.db !! "T" = Some Sample.task
  ∧ (t_status <$> tasks (snd single) !! "T" = Some completed
     ∧ t_completedAt <$> tasks (snd single) !! "T" = Some (Some 9))
  ∧ (fst bulk = success 1%nat
     ∧ t_status <$> tasks (snd bulk) !! "T" = Some completed
     ∧ t_completedAt <$> tasks (snd bulk) !! "T" = Some None)
  ∧ (fst reopened = success 1%nat
     ∧ t_status <$> tasks (snd reopened) !! "T" = Some todo
     ∧ t_completedAt <$> tasks (snd reopened) !! "T" = Some (Some 9)).
Proof. by vm_compute. Qed.

(** ** C5: the bulk update is all-or-nothing *)

Lemma existsb_equals (k : ObjectId) (ids : list ObjectId) :
  existsb (equals k) ids = true ↔ k ∈ ids.
Proof.
  rewrite existsb_exists. split.
  - intros (x & Hin & Heq). apply equals_eq in Heq. subst x. by apply list_elem_of_In.
  - intros Hin. exists k. split; [by apply list_elem_of_In | by apply equals_eq].
Qed.

Lemma NoDup_fst_filter {A} (f : ObjectId * A → bool) (l : list (ObjectId * A)) :
  NoDup l.*1 → NoDup (List.filter f l).*1.
Proof.
  induction l as [|kv l IH]; simpl; [done|].
  rewrite NoDup_cons. intros [Hnotin Hnd].
  destruct (f kv); simpl; [|by apply IH].
  rewrite NoDup_cons. split; [|by apply IH].
  intros Hin. apply Hnotin.
  apply list_elem_of_fmap in Hin as (kv' & -> & Hin').
  apply list_elem_of_fmap. exists kv'. split; [done|].
  apply list_elem_of_In in Hin'. apply filter_In in Hin' as [Hin' _].
  by apply list_elem_of_In.
Qed.

(** What [findAll({_id: {$in: ids}})] returns. *)
Lemma findAllIn_elem (db : Db) (ids : list ObjectId) (tid : ObjectId) (t : Task) :
  In (tid, t) (fst (TaskRepository.findAllIn ids db))
  ↔ tasks db !! tid = Some t ∧ tid ∈ ids.
Proof.
  unfold TaskRepository.findAllIn. simpl.
  rewrite filter_In. simpl. rewrite existsb_equals.
  by rewrite <- list_elem_of_In, elem_of_map_to_list.
Qed.

(** If as many tasks are found as ids were given, every id was found. *)
Lemma findAllIn_complete (db : Db) (ids : list ObjectId) :
  length (fst (TaskRepository.findAllIn ids db)) = length ids →
  ∀ tid, tid ∈ ids → ∃ t, tasks db !! tid = Some t.
Proof.
  intros Hlen tid Hin.
  set (found := fst (TaskRepository.findAllIn ids db)) in *.
  assert (Hnd : NoDup found.*1).
  { apply NoDup_fst_filter, NoDup_fst_map_to_list. }
  assert (Hsub : ∀ k, k ∈ found.*1 → k ∈ ids).
  { intros k Hk. apply list_elem_of_fmap in Hk as ([k' t] & -> & Hk).
    apply list_elem_of_In in Hk. by apply findAllIn_elem in Hk as [_ Hk]. }
  assert (Hperm : found.*1 ≡ₚ ids).
  { apply submseteq_length_Permutation; [by apply NoDup_submseteq|].
    rewrite length_fmap. lia. }
  rewrite <- Hperm in Hin.
  apply list_elem_of_fmap in Hin as ([k' t] & -> & Hk).
  apply list_elem_of_In in Hk. apply findAllIn_elem in Hk as [Hk _]. by exists t.
Qed.

(** The access loop reads only, and answers whether every task passed. *)
Lemma allAccessible_run (found : list (ObjectId * Task)) (userId : ObjectId) (db : Db) :
  TaskService.allAccessible found userId db =
  (forallb (λ task, fst (ProjectRepository.userHasAccess (t_projectId (snd task)) userId db))
           found, db).
Proof.
  induction found as [|task rest IH]; [done|].
  cbn [TaskService.allAccessible forallb]. unfold bind.
  rewrite userHasAccess_snd.
  destruct (fst (ProjectRepository.userHasAccess _ userId db)); simpl; [apply IH | done].
Qed.

(** The three outcomes of [bulkUpdateTasks]. *)
Lemma bulkUpdateTasks_run (db : Db) (bulkData : BulkUpdateTasks) (userId : ObjectId)
    (now : Date) :
  let found := fst (TaskRepository.findAllIn (bu_taskIds bulkData) db) in
  TaskService.bulkUpdateTasks bulkData userId now db =
  if negb (length found =? length (bu_taskIds bulkData))%nat
  then (failure TASKS_NOT_FOUND, db)
  else if negb (forallb
                  (λ task, fst (ProjectRepository.userHasAccess
                                  (t_projectId (snd task)) userId db)) found)
  then (failure TASKS_ACCESS_DENIED, db)
  else (success (fst (TaskRepository.bulkUpdate (bu_taskIds bulkData)
                        (bu_updates bulkData) now db)),
        snd (TaskRepository.bulkUpdate (bu_taskIds bulkData)
               (bu_updates bulkData) now db)).
Proof.
  intros found. unfold TaskService.bulkUpdateTasks, bind.
  change (snd (TaskRepository.findAllIn (bu_taskIds bulkData) db)) with db.
  fold found.
  destruct (negb (length found =? _)%nat); [done|].
  rewrite allAccessible_run. cbn [fst snd].
  by destruct (negb _).
Qed.

(** C5.  If one of the given task ids names no task, the bulk update fails
    with TASKS_NOT_FOUND; if the actor lacks access to the project of one of
    the named tasks, it fails with TASKS_NOT_FOUND or TASKS_ACCESS_DENIED.
    Every failed call leaves the database as it was, so no task is
    modified; a call that applies the updates has found every id and
    passed every access check. *)
Theorem C5_bulk_update_all_or_nothing
    (db : Db) (bulkData : BulkUpdateTasks) (userId : ObjectId) (now : Date) :
  ((∃ tid, tid ∈ bu_taskIds bulkData ∧ tasks db !! tid = None) →
     TaskService.bulkUpdateTasks bulkData userId now db = (failure TASKS_NOT_FOUND, db))
  ∧ ((∃ tid t, tid ∈ bu_taskIds bulkData ∧ tasks db !! tid = Some t
               ∧ ¬ canAccess db (t_projectId t) userId) →
     TaskService.bulkUpdateTasks bulkData userId now db = (failure TASKS_NOT_FOUND, db)
     ∨ TaskService.bulkUpdateTasks bulkData userId now db
       = (failure TASKS_ACCESS_DENIED, db))
  ∧ (∀ code, fst (TaskService.bulkUpdateTasks bulkData userId now db) = failure code →
       snd (TaskService.bulkUpdateTasks bulkData userId now db) = db)
  ∧ (∀ n, fst (TaskService.bulkUpdateTasks bulkData userId now db) = success n →
       ∀ tid, tid ∈ bu_taskIds bulkData →
         ∃ t, tasks db !! tid = Some t ∧ canAccess db (t_projectId t) userId).
Proof.
  pose proof (bulkUpdateTasks_run db bulkData userId now) as Hrun. cbv zeta in Hrun.
  set (found := fst (TaskRepository.findAllIn (bu_taskIds bulkData) db)) in *.
  assert (Hmissing : (∃ tid, tid ∈ bu_taskIds bulkData ∧ tasks db !! tid = None) →
            (length found =? length (bu_taskIds bulkData))%nat = false).
  { intros (tid & Hin & Hnone). apply Nat.eqb_neq. intros Hlen.
    destruct (findAllIn_complete db _ Hlen tid Hin) as [t Ht]. congruence. }
  assert (Hdenied : (∃ tid t, tid ∈ bu_taskIds bulkData ∧ tasks db !! tid = Some t
               ∧ ¬ canAccess db (t_projectId t) userId) →
            forallb (λ task, fst (ProjectRepository.userHasAccess
                                    (t_projectId (snd task)) userId db)) found = false).
  { intros (tid & t & Hin & Ht & Hno). apply not_true_is_false. intros Hall.
    rewrite forallb_forall in Hall.
    assert (Hfound : In (tid, t) found) by by apply findAllIn_elem.
    apply Hall in Hfound. simpl in Hfound. by apply userHasAccess_canAccess in Hfound. }
  split; [|split; [|split]].
  - intros Hbad. by rewrite Hrun, (Hmissing Hbad).
  - intros Hbad. rewrite Hrun, (Hdenied Hbad).
    destruct (negb (length found =? _)%nat); [by left | by right].
  - intros code. rewrite Hrun.
    destruct (negb (length found =? _)%nat); [done|].
    destruct (negb (forallb _ _)); [done|]. simpl. intros [=].
  - intros n Hok tid Hin.
    destruct (tasks db !! tid) as [t|] eqn:Ht.
    + exists t. split; [done|].
      destruct (decide (fst (ProjectRepository.userHasAccess (t_projectId t) userId db)
                        = true)) as [Hacc|Hacc]; [by apply userHasAccess_canAccess|].
      exfalso.
      assert (Hno : ¬ canAccess db (t_projectId t) userId)
        by by rewrite <- userHasAccess_canAccess.
      rewrite Hrun in Hok. rewrite Hdenied in Hok by eauto 6.
      by destruct (negb (length found =? _)%nat).
    + exfalso. rewrite Hrun in Hok. rewrite Hmissing in Hok by eauto. done.
Qed.

Lemma C5_bulk_update_all_or_nothing_witness :
  "T" ∈ ["T"; "U"] ∧ "U" ∈ ["T"; "U"]
  ∧ tasks Sample.db !! "U" = None
  ∧ tasks Sample.db !! "T" = Some Sample.task
  ∧ ¬ canAccess Sample.db (t_projectId Sample.task) "C"
  ∧ TaskService.bulkUpdateTasks (mkBulkUpdateTasks ["T"; "U"] (Some completed) None None)
      "A" 9 Sample.db = (failure TASKS_NOT_FOUND, Sample.db)
  ∧ (TaskService.bulkUpdateTasks (mkBulkUpdateTasks ["T"] (Some completed) None None)
       "C" 9 Sample.db = (failure TASKS_NOT_FOUND, Sample.db)
     ∨ TaskService.bulkUpdateTasks (mkBulkUpdateTasks ["T"] (Some completed) None None)
       "C" 9 Sample.db = (failure TASKS_ACCESS_DENIED, Sample.db)).
Proof.
  assert (HT : "T" ∈ ["T"; "U"]) by (apply list_elem_of_In; by left).
  assert (HU : "U" ∈ ["T"; "U"]) by (apply list_elem_of_In; right; by left).
  assert (HT1 : "T" ∈ ["T"]) by (apply list_elem_of_In; by left).
  assert (Hnone : tasks Sample.db !! "U" = None) by reflexivity.
  assert (Hsome : tasks Sample.db !! "T" = Some Sample.task) by reflexivity.
  assert (Hno : ¬ canAccess Sample.db (t_projectId Sample.task) "C").
  { intros Hacc. apply userHasAccess_canAccess in Hacc. by vm_compute in Hacc. }
  split; [exact HT|]. split; [exact HU|]. split; [exact Hnone|].
  split; [exact Hsome|]. split; [exact Hno|]. split.
  - apply (proj1 (C5_bulk_update_all_or_nothing Sample.db
                    (mkBulkUpdateTasks ["T"; "U"] (Some completed) None None) "A" 9)).
    exists "U". by split.
  - apply (proj1 (proj2 (C5_bulk_update_all_or_nothing Sample.db
                    (mkBulkUpdateTasks ["T"] (Some completed) None None) "C" 9))).
    exists "T", Sample.task. by split; [|split].
Defined.

(** ** C7: the assignee must have access to the project *)

Lemma from_option_isActive (db : Db) (userId : ObjectId) :
  from_option u_isActive false (users db !! userId) = true ↔ activeUser db userId.
Proof.
  unfold activeUser. destruct (users db !! userId) as [u|]; simpl.
  - split; [intros Hact; by exists u | by intros (u' & [= <-] & Hact)].
  - split; [done | by intros (u' & [=] & _)].
Qed.

(** The guards of [createTask] in the order the service evaluates them. *)
Lemma createTask_run (db : Db) (data : CreateTask) (actor newId : ObjectId) (now : Date) :
  TaskService.createTask data actor newId now db =
  if negb (fst (ProjectRepository.userHasAccess (ct_projectId data) actor db))
  then (failure PROJECT_ACCESS_DENIED, db)
  else if negb (from_option u_isActive false (users db !! ct_assignedTo data))
  then (failure INVALID_ASSIGNED_USER, db)
  else if negb (fst (ProjectRepository.userHasAccess (ct_projectId data)
                       (ct_assignedTo data) db))
  then (failure ASSIGNED_USER_NO_ACCESS, db)
  else
    match TaskRepository.create newId now data db with
    | (Some t, db') => (success t, db')
    | (None, db') => (failure TASK_CREATION_ERROR, db')
    end.
Proof.
  unfold TaskService.createTask, bind. rewrite !userHasAccess_snd.
  destruct (negb (fst (ProjectRepository.userHasAccess _ actor db))); [done|].
  unfold UserRepository.findById. cbn [fst snd].
  destruct (negb (from_option _ _ _)); [done|].
  rewrite !userHasAccess_snd.
  destruct (negb (fst (ProjectRepository.userHasAccess _ _ db))); [done|].
  unfold TaskRepository.create, TaskRepository.findById, ret.
  destruct (tasks db !! newId); cbn [fst snd]; [done|].
  cbn [tasks]. by rewrite lookup_insert_eq.
Qed.

(** The guards of [updateTask] in the order the service evaluates them. *)
Lemma updateTask_run (db : Db) (taskId : ObjectId) (t : Task) (data : UpdateTask)
    (actor : ObjectId) (now : Date) :
  tasks db !! taskId = Some t →
  TaskService.updateTask taskId data actor now db =
  if negb (fst (ProjectRepository.userHasAccess (t_projectId t) actor db))
  then (failure TASK_ACCESS_DENIED, db)
  else if truthy (upT_assignedTo data)
          && negb (from_option u_isActive false
                     (users db !! default "" (upT_assignedTo data)))
  then (failure INVALID_ASSIGNED_USER, db)
  else if truthy (upT_assignedTo data)
          && negb (fst (ProjectRepository.userHasAccess (t_projectId t)
                          (default "" (upT_assignedTo data)) db))
  then (failure ASSIGNED_USER_NO_ACCESS, db)
  else
    (success (Some (applyTaskUpdate
                      (taskSchema_pre_findOneAndUpdate now (toQuery data)) now t)),
     snd (TaskRepository.update taskId data now db)).
Proof.
  intros Ht. unfold TaskService.updateTask, TaskRepository.findById, bind.
  cbn [fst snd]. rewrite Ht. rewrite !userHasAccess_snd.
  destruct (negb (fst (ProjectRepository.userHasAccess _ actor db))); [done|].
  destruct (truthy (upT_assignedTo data)); cbn [andb].
  - unfold UserRepository.findById. cbn [fst snd].
    destruct (negb (from_option _ _ _)); [done|].
    rewrite !userHasAccess_snd.
    destruct (negb (fst (ProjectRepository.userHasAccess _ _ db))); [done|].
    unfold TaskRepository.update, ret. cbn [fst snd]. rewrite Ht. cbn [fst snd tasks].
    by rewrite lookup_insert_eq.
  - unfold TaskRepository.update, ret. cbn [fst snd]. rewrite Ht. cbn [fst snd tasks].
    by rewrite lookup_insert_eq.
Qed.

(** C7 (as amended).  When the proposed assignee has no access to the
    task's project, task creation and the single-task update that sets
    assignedTo fail and leave the database as it was.  The guards are
    evaluated in order, so the code is PROJECT_ACCESS_DENIED (creation) or
    TASK_ACCESS_DENIED (update) when the actor has no access,
    INVALID_ASSIGNED_USER when the actor has access and the assignee is not
    an active user, and ASSIGNED_USER_NO_ACCESS when the actor has access
    and the assignee is an active user. *)
Theorem C7_assignee_without_access
    (db : Db) (pid assignee actor : ObjectId) :
  ¬ canAccess db pid assignee →
  (∀ data newId now, ct_projectId data = pid → ct_assignedTo data = assignee →
     snd (TaskService.createTask data actor newId now db) = db
     ∧ (¬ canAccess db pid actor →
          fst (TaskService.createTask data actor newId now db)
          = failure PROJECT_ACCESS_DENIED)
     ∧ (canAccess db pid actor → ¬ activeUser db assignee →
          fst (TaskService.createTask data actor newId now db)
          = failure INVALID_ASSIGNED_USER)
     ∧ (canAccess db pid actor → activeUser db assignee →
          fst (TaskService.createTask data actor newId now db)
          = failure ASSIGNED_USER_NO_ACCESS))
  ∧ (∀ tid t data now, tasks db !! tid = Some t → t_projectId t = pid →
       upT_assignedTo data = Some assignee → assignee ≠ "" →
     snd (TaskService.updateTask tid data actor now db) = db
     ∧ (¬ canAccess db pid actor →
          fst (TaskService.updateTask tid data actor now db)
          = failure TASK_ACCESS_DENIED)
     ∧ (canAccess db pid actor → ¬ activeUser db assignee →
          fst (TaskService.updateTask tid data actor now db)
          = failure INVALID_ASSIGNED_USER)
     ∧ (canAccess db pid actor → activeUser db assignee →
          fst (TaskService.updateTask tid data actor now db)
          = failure ASSIGNED_USER_NO_ACCESS)).
Proof.
  intros Hno.
  pose proof (userHasAccess_denied _ _ _ Hno) as Hassignee.
  split.
  - intros data newId now <- <-. rewrite createTask_run, Hassignee. cbn [fst negb].
    destruct (canAccess_cases db (ct_projectId data) actor) as [Hacc|Hacc].
    + rewrite (userHasAccess_granted _ _ _ Hacc). cbn [fst negb].
      destruct (from_option u_isActive false (users db !! ct_assignedTo data)) eqn:Hact;
        cbn [negb fst snd]; (split; [done|]); (split; [done|]); split; try done.
      * intros _ Hinactive. exfalso. by apply Hinactive, from_option_isActive.
      * intros _ Hactive. apply from_option_isActive in Hactive. congruence.
    + rewrite (userHasAccess_denied _ _ _ Hacc). cbn [fst snd negb].
      by repeat split.
  - intros tid t data now Ht <- Hdata Hne.
    rewrite (updateTask_run db tid t data actor now Ht), Hdata.
    rewrite (truthy_Some _ Hne). cbn [from_option id andb]. rewrite Hassignee.
    cbn [fst negb].
    destruct (canAccess_cases db (t_projectId t) actor) as [Hacc|Hacc].
    + rewrite (userHasAccess_granted _ _ _ Hacc). cbn [fst negb].
      destruct (from_option u_isActive false (users db !! assignee)) eqn:Hact;
        cbn [negb fst snd]; (split; [done|]); (split; [done|]); split; try done.
      * intros _ Hinactive. exfalso. by apply Hinactive, from_option_isActive.
      * intros _ Hactive. apply from_option_isActive in Hactive. congruence.
    + rewrite (userHasAccess_denied _ _ _ Hacc). cbn [fst snd negb].
      by repeat split.
Qed.

Lemma sample_outsider_has_no_access : ¬ canAccess Sample.db "P" "C".
Proof. intros Hacc. apply userHasAccess_canAccess in Hacc. by vm_compute in Hacc. Qed.

Lemma C7_assignee_without_access_witness :
  ¬ canAccess Sample.db "P" "C"
  ∧ TaskService.createTask (mkCreateTask "Review" "Review the draft" "P" "C" high 200)
      "B" "N" 9 Sample.db = (failure ASSIGNED_USER_NO_ACCESS, Sample.db)
  ∧ TaskService.updateTask "T" (mkUpdateTask None None (Some "C") None None None)
      "B" 9 Sample.db = (failure ASSIGNED_USER_NO_ACCESS, Sample.db).
Proof.
  pose proof sample_outsider_has_no_access as Hno.
  assert (HB : canAccess Sample.db "P" "B").
  { apply userHasAccess_canAccess. by vm_compute. }
  assert (HC : activeUser Sample.db "C").
  { apply from_option_isActive. by vm_compute. }
  destruct (C7_assignee_without_access Sample.db "P" "C" "B" Hno) as [Hcreate Hupdate].
  split; [exact Hno|]. split.
  - destruct (Hcreate (mkCreateTask "Review" "Review the draft" "P" "C" high 200)
                "N" 9 eq_refl eq_refl) as (Hdb & _ & _ & Hcode).
    specialize (Hcode HB HC). rewrite <- Hdb at 2. rewrite <- Hcode.
    by destruct (TaskService.createTask _ _ _ _ _).
  - assert (Hne : "C" ≠ "") by discriminate.
    destruct (Hupdate "T" Sample.task (mkUpdateTask None None (Some "C") None None None)
                9 eq_refl eq_refl eq_refl Hne) as (Hdb & _ & _ & Hcode).
    specialize (Hcode HB HC). rewrite <- Hdb at 2. rewrite <- Hcode.
    by destruct (TaskService.updateTask _ _ _ _ _).
Defined.

(** C7 as stated fails.  Outsider C creates a task in project P assigned to
    C: the answer is PROJECT_ACCESS_DENIED.  Member B assigns a task to Z,
    who is no user at all: the answer is INVALID_ASSIGNED_USER.  In both
    the assignee has no access to P and the code is not
    ASSIGNED_USER_NO_ACCESS. *)
Lemma C7_counterexample :
  ¬ canAccess Sample.db "P" "C"
  ∧ fst (TaskService.createTask (mkCreateTask "Review" "Review the draft" "P" "C" high 200)
           "C" "N" 9 Sample.db) = failure PROJECT_ACCESS_DENIED
  ∧ ¬ canAccess Sample.db "P" "Z"
  ∧ fst (TaskService.createTask (mkCreateTask "Review" "Review the draft" "P" "Z" high 200)
           "B" "N" 9 Sample.db) = failure INVALID_ASSIGNED_USER
  ∧ fst (TaskService.updateTask "T" (mkUpdateTask None None (Some "Z") None None None)
           "B" 9 Sample.db) = failure INVALID_ASSIGNED_USER.
Proof.
  split; [exact sample_outsider_has_no_access|]. split; [by vm_compute|].
  split; [|split; by vm_compute].
  intros Hacc. apply userHasAccess_canAccess in Hacc. by vm_compute in Hacc.
Qed.

(** The bulk update sets assignedTo without looking at the new assignee:
    owner A hands task T to outsider C. *)
Lemma bulkUpdateTasks_skips_assignee_check :
  let r := TaskService.bulkUpdateTasks (mkBulkUpdateTasks ["T"] None None (Some "C"))
             "A" 9 Sample.db in
  ¬ canAccess Sample.db "P" "C"
  ∧ fst r = success 1%nat
  ∧ t_assignedTo <$> tasks (snd r) !! "T" = Some "C".
Proof.
  split; [exact sample_outsider_has_no_access|]. by vm_compute.
Qed.

(** ** C8: registration *)

(** [findOne({email})] finds a user iff some stored user has that email. *)
Lemma findByEmail_found (db : Db) (email : string) :
  (∃ id u, users db !! id = Some u ∧ u_email u = email) →
  ∃ found, fst (UserRepository.findByEmail email db) = Some found.
Proof.
  intros (id & u & Hu & Hemail). unfold UserRepository.findByEmail. cbn [fst].
  destruct (List.filter _ _) as [|kv rest] eqn:Hfilter; [|by eexists].
  exfalso.
  assert (Hin : In (id, u) (List.filter
                              (λ kv, String.eqb (u_email (snd kv)) email)
                              (map_to_list (users db)))).
  { apply filter_In. split.
    - by apply list_elem_of_In, elem_of_map_to_list.
    - by apply String.eqb_eq. }
  by rewrite Hfilter in Hin.
Qed.




(** ** C9: what modifies a user record *)

(** A call other than registration, login, profile update and password
    change leaves the users collection as it was. *)
Lemma perform_frame_users `{Env} (call : ServiceCall) (now : Date) (db : Db) :
  mutatesUsers call = false → users (perform call now db) = users db.
Proof.
  destruct call; intros Hm; try discriminate Hm; unfold perform.
  - unfold UserService.refreshToken, UserRepository.findById, bind, ret.
    repeat (case_match; cbn [fst snd]; try done).
  - unfold UserService.getUserProfile, UserRepository.findById, bind, ret.
    repeat (case_match; cbn [fst snd]; try done).
  - run_service. unfold UserRepository.findAllActiveIn.
    repeat (case_match; simpl; try done).
  - run_service. repeat (case_match; simpl; try done).
  - run_service. repeat (case_match; simpl; try done).
  - run_service. repeat (case_match; simpl; try done).
  - run_service. repeat (case_match; simpl; try done).
  - run_service. repeat (case_match; simpl; try done).
  - rewrite createTask_run. unfold TaskRepository.create.
    repeat (case_match; simplify_eq; cbn [fst snd users]; try done).
  - unfold TaskService.getTaskById, TaskRepository.findById, bind, ret. cbn [fst snd].
    destruct (tasks db !! taskId); [|done]. rewrite userHasAccess_snd.
    by destruct (negb _).
  - unfold TaskService.getProjectTasks, TaskRepository.findByProject, bind, ret.
    rewrite userHasAccess_snd. by destruct (negb _).
  - done.
  - destruct (tasks db !! taskId) as [t|] eqn:Ht.
    + rewrite (updateTask_run db taskId t updateData userId now Ht).
      unfold TaskRepository.update. rewrite Ht.
      repeat (case_match; cbn [fst snd users]; try done).
    + unfold TaskService.updateTask, TaskRepository.findById, bind, ret. cbn [fst snd].
      by rewrite Ht.
  - unfold TaskService.deleteTask, TaskRepository.findById, TaskRepository.delete,
      bind, ret. cbn [fst snd].
    destruct (tasks db !! taskId) as [t|] eqn:Ht; [|done]. rewrite userHasAccess_snd.
    destruct (negb _); [done|]. cbn [fst snd]. by rewrite Ht.
  - rewrite bulkUpdateTasks_run.
    repeat (case_match; cbn [fst snd users]; try done).
Qed.

(** [authenticate] writes one thing: lastLogin (and with it updatedAt) of
    the user it lets through. *)
Lemma authenticate_effect `{Env} (headers : Headers) (now : Date) (db : Db) :
  projects (snd (Middleware.authenticate headers now db)) = projects db
  ∧ tasks (snd (Middleware.authenticate headers now db)) = tasks db
  ∧ match fst (Middleware.authenticate headers now db) with
    | respond _ _ => snd (Middleware.authenticate headers now db) = db
    | next reqUser =>
        ∃ u, users db !! ru_userId reqUser = Some u
             ∧ u_isActive u = true
             ∧ users (snd (Middleware.authenticate headers now db))
               = <[ru_userId reqUser := stampLastLogin now u]> (users db)
    end.
Proof.
  unfold Middleware.authenticate.
  destruct (negb (truthy (Middleware.tokenOf headers))); [done|].
  destruct (jwt_verify _ _) as [decoded| |]; [|done|done].
  unfold bind, UserRepository.findById, UserRepository.updateLastLogin,
    UserRepository.update, ret. cbn [fst snd].
  destruct (users db !! jp_userId decoded) as [u|] eqn:Hu; cbn [from_option]; [|done].
  destruct (u_isActive u) eqn:Hact; cbn [negb fst snd]; [|done].
  rewrite Hu. cbn [fst snd projects tasks users ru_userId].
  split; [done|]. split; [done|]. exists u. by repeat split.
Qed.

(** The controller behind a route runs after the middleware and, for the
    read routes, writes nothing. *)
Lemma GET_project_db `{Env} (headers : Headers) (id : ObjectId) (now : Date) (db : Db) :
  snd (Routes.GET_project headers id now db) = snd (Middleware.authenticate headers now db).
Proof.
  unfold Routes.GET_project, Routes.projectMember, bind.
  destruct (fst (Middleware.authenticate headers now db)) as [reqUser|]; [|done].
  unfold Middleware.requireProjectMember, ProjectService.getProjectById,
    ProjectRepository.findById, bind, ret.
  repeat (case_match; cbn [fst snd]; try done).
Qed.

Lemma GET_task_db `{Env} (headers : Headers) (id : ObjectId) (now : Date) (db : Db) :
  snd (Routes.GET_task headers id now db) = snd (Middleware.authenticate headers now db).
Proof.
  unfold Routes.GET_task, Routes.authenticated, bind.
  destruct (fst (Middleware.authenticate headers now db)) as [reqUser|]; [|done].
  unfold TaskService.getTaskById, TaskRepository.findById, bind, ret. cbn [fst snd].
  destruct (tasks _ !! id); [|done]. rewrite userHasAccess_snd. by destruct (negb _).
Qed.

(** [requireProjectMember] lets an admin through whatever the project. *)
Lemma requireProjectMember_admin_passes `{Env} (reqUser : ReqUser) (projectId : ObjectId)
    (db : Db) :
  ru_role reqUser = role_admin →
  Middleware.requireProjectMember (Some reqUser) projectId db = (next tt, db).
Proof. intros Hrole. unfold Middleware.requireProjectMember. by rewrite Hrole. Qed.

(** A user who is neither admin, owner nor member is answered by
    [requireProjectMember] itself. *)
Lemma requireProjectMember_outsider `{Env} (reqUser : ReqUser) (projectId : ObjectId)
    (p : Project) (db : Db) :
  ru_role reqUser = role_user →
  projects db !! projectId = Some p →
  ¬ canAccess db projectId (ru_userId reqUser) →
  Middleware.requireProjectMember (Some reqUser) projectId db
  = (respond 403 PROJECT_ACCESS_DENIED, db).
Proof.
  intros Hrole Hp Hno. apply userHasAccess_denied in Hno.
  rewrite userHasAccess_run, Hp in Hno. injection Hno as Hno.
  apply orb_false_iff in Hno as [Ho Hm].
  unfold Middleware.requireProjectMember, ProjectRepository.findById, bind, ret.
  rewrite Hrole. simpl. rewrite Hp. simpl. by rewrite Ho, Hm.
Qed.

(** C9 (as amended).  Of the service calls, only registration, login,
    profile update (deactivation included) and password change modify the
    users collection.  Besides them the authentication middleware, which
    runs before every authenticated request, writes lastLogin (and the
    updatedAt timestamp) of the user it authenticates and nothing else; so
    an authenticated read-only request such as fetching a project or a task
    changes lastLogin and updatedAt of the requesting user, and no other
    field and no other user's record. *)
Theorem C9_user_record_writers `{Env} (db : Db) (now : Date) :
  (∀ call, mutatesUsers call = false → users (perform call now db) = users db)
  ∧ (∀ headers,
       match fst (Middleware.authenticate headers now db) with
       | respond _ _ => users (snd (Middleware.authenticate headers now db)) = users db
       | next reqUser =>
           ∃ u, users db !! ru_userId reqUser = Some u
                ∧ users (snd (Middleware.authenticate headers now db))
                  = <[ru_userId reqUser := stampLastLogin now u]> (users db)
       end)
  ∧ (∀ headers id,
       users (snd (Routes.GET_project headers id now db))
       = users (snd (Middleware.authenticate headers now db))
       ∧ users (snd (Routes.GET_task headers id now db))
         = users (snd (Middleware.authenticate headers now db))).
Proof.
  split; [intros call; apply perform_frame_users|]. split.
  - intros headers.
    destruct (authenticate_effect headers now db) as (_ & _ & Hauth).
    destruct (fst (Middleware.authenticate headers now db)) as [reqUser|].
    + destruct Hauth as (u & Hu & _ & Husers). by exists u.
    + by rewrite Hauth.
  - intros headers id. by rewrite GET_project_db, GET_task_db.
Qed.

Lemma C9_user_record_writers_witness :
  mutatesUsers (GetProjectByIdCall "P" (Some "B")) = false
  ∧ users (@perform Sample.env (GetProjectByIdCall "P" (Some "B")) 9 Sample.db)
    = users Sample.db
  ∧ users (snd (@Routes.GET_project Sample.env (Sample.bearer "B") "P" 9 Sample.db))
    = users (snd (@Middleware.authenticate Sample.env (Sample.bearer "B") 9 Sample.db)).
Proof.
  assert (Hm : mutatesUsers (GetProjectByIdCall "P" (Some "B")) = false) by reflexivity.
  destruct (@C9_user_record_writers Sample.env Sample.db 9) as (Hframe & _ & Hroutes).
  split; [exact Hm|]. split; [exact (Hframe _ Hm)|].
  exact (proj1 (Hroutes (Sample.bearer "B") "P")).
Defined.

(** C9 as stated fails.  Member B fetches project P at time 9 with a valid
    token: the request succeeds, and B's stored record, whose lastLogin was
    unset, now has lastLogin = 9. *)
Lemma C9_counterexample :
  fst (@Routes.GET_project Sample.env (Sample.bearer "B") "P" 9 Sample.db)
  = next (success Sample.proj)
  ∧ u_lastLogin <$> users Sample.db !! "B" = Some None
  ∧ u_lastLogin <$>
      users (snd (@Routes.GET_project Sample.env (Sample.bearer "B") "P" 9 Sample.db)) !! "B"
    = Some (Some 9)
  ∧ users (snd (@Routes.GET_project Sample.env (Sample.bearer "B") "P" 9 Sample.db))
    ≠ users Sample.db.
Proof.
  split; [by vm_compute|]. split; [by vm_compute|].
  assert (Hafter : u_lastLogin <$>
      users (snd (@Routes.GET_project Sample.env (Sample.bearer "B") "P" 9 Sample.db)) !! "B"
    = Some (Some 9)) by by vm_compute.
  split; [exact Hafter|].
  intros Heq. rewrite Heq in Hafter. by vm_compute in Hafter.
Qed.

(** ** The owner-only rule seen from the routes *)

(** Admin D, neither owner nor member of P, sends PUT /projects/P: the
    membership middleware lets the admin through and the service refuses.
    Outsider C sends the same request and is answered by the middleware. *)
Example PUT_project_admin_and_outsider :
  fst (@Routes.PUT_project Sample.env (Sample.bearer "D") "P"
         (mkUpdateProject (Some "Renamed") None None) 9 Sample.db)
  = next (failure INSUFFICIENT_PERMISSIONS)
  ∧ fst (@Routes.PUT_project Sample.env (Sample.bearer "C") "P"
           (mkUpdateProject (Some "Renamed") None None) 9 Sample.db)
    = respond 403 PROJECT_ACCESS_DENIED
  ∧ projects (snd (@Routes.PUT_project Sample.env (Sample.bearer "D") "P"
                     (mkUpdateProject (Some "Renamed") None None) 9 Sample.db))
    = projects Sample.db
  ∧ projects (snd (@Routes.PUT_project Sample.env (Sample.bearer "C") "P"
                     (mkUpdateProject (Some "Renamed") None None) 9 Sample.db))
    = projects Sample.db.
Proof. by vm_compute. Qed.

(** The scenario of the specification: owner A asks to remove A and gets
    CANNOT_REMOVE_OWNER; member B removes itself and is no longer a
    member. *)
Example remove_member_scenario :
  fst (ProjectService.removeMember "P" "A" "A" 9 Sample.db) = failure CANNOT_REMOVE_OWNER
  ∧ p_members <$> projects (snd (ProjectService.removeMember "P" "B" "B" 9 Sample.db)) !! "P"
    = Some [].
Proof. by vm_compute. Qed.

(** * Further properties of the services *)

(** ** Project membership *)

(** The guards of [addMember] in the order the service evaluates them. *)
Lemma addMember_run (db : Db) (pid member caller : ObjectId) (p : Project) (now : Date) :
  projects db !! pid = Some p →
  ProjectService.addMember pid member caller now db =
  if negb (isOwner p caller) then (failure INSUFFICIENT_PERMISSIONS, db)
  else if negb (from_option u_isActive false (users db !! member))
  then (failure INVALID_USER, db)
  else if isMember p member || isOwner p member then (failure ALREADY_MEMBER, db)
  else
    let p' := ProjectRepository.setMembers
                (ProjectRepository.addToSet member (p_members p)) now p in
    (success (Some p'), mkDb (users db) (<[pid := p']> (projects db)) (tasks db)).
Proof.
  intros Hp. run_service. rewrite Hp. simpl.
  destruct (negb (isOwner p caller)); [done|].
  destruct (negb _); [done|].
  destruct (isMember p member || isOwner p member); [done|].
  simpl. by rewrite Hp.
Qed.

Lemma addToSet_fresh (member : ObjectId) (members : list ObjectId) :
  member ∉ members → ProjectRepository.addToSet member members = (members ++ [member])%list.
Proof.
  intros Hnotin. unfold ProjectRepository.addToSet.
  destruct (existsb (equals member) members) eqn:Hex; [|done].
  by apply existsb_equals in Hex.
Qed.

Lemma pull_elem (target u : ObjectId) (members : list ObjectId) :
  u ∈ ProjectRepository.pull target members ↔ u ∈ members ∧ u ≠ target.
Proof.
  unfold ProjectRepository.pull. split.
  - intros Hin. apply list_elem_of_In, filter_In in Hin as [Hin Hne].
    apply negb_true_iff, equals_neq in Hne. split; [by apply list_elem_of_In | done].
  - intros [Hin Hne]. apply list_elem_of_In, filter_In.
    split; [by apply list_elem_of_In|]. by apply negb_true_iff, equals_neq.
Qed.

Lemma pull_absent (target : ObjectId) (members : list ObjectId) :
  target ∉ members → ProjectRepository.pull target members = members.
Proof.
  unfold ProjectRepository.pull. induction members as [|m members IH]; [done|].
  rewrite not_elem_of_cons. intros [Hne Hnotin]. simpl.
  assert (Hm : equals m target = false) by (apply equals_neq; congruence).
  rewrite Hm. simpl. by rewrite IH.
Qed.

(** A successful call of the service found the project. *)
Lemma addMember_success_inv (db : Db) (pid member caller : ObjectId) (now : Date)
    (r : option Project) :
  fst (ProjectService.addMember pid member caller now db) = success r →
  ∃ p, projects db !! pid = Some p
       ∧ caller = p_owner p
       ∧ activeUser db member
       ∧ member ≠ p_owner p
       ∧ (member ∉ p_members p)
       ∧ snd (ProjectService.addMember pid member caller now db)
         = mkDb (users db)
                (<[pid := (ProjectRepository.setMembers
                             (p_members p ++ [member])%list now p)]>
                   (projects db))
                (tasks db).
Proof.
  destruct (projects db !! pid) as [p|] eqn:Hp.
  - rewrite (addMember_run db pid member caller p now Hp).
    destruct (isOwner p caller) eqn:Ho; cbn [negb]; [|intros [=]].
    destruct (from_option u_isActive false (users db !! member)) eqn:Hact;
      cbn [negb]; [|intros [=]].
    destruct (isMember p member) eqn:Hm; cbn [orb]; [intros [=]|].
    destruct (isOwner p member) eqn:Hom; [intros [=]|].
    intros _. exists p. apply isOwner_true in Ho. apply from_option_isActive in Hact.
    apply isOwner_false in Hom. apply isMember_false in Hm.
    repeat split; try done. cbn [snd]. by rewrite addToSet_fresh.
  - run_service. rewrite Hp. simpl. intros [=].
Qed.

(** X1.  What add-member does for the owner of a stored project: a target
    that is not a stored active user is refused with INVALID_USER, an
    active target that is the owner or already a member with
    ALREADY_MEMBER, both without any write; any other active target is
    appended to the member list, and nothing else of the project changes
    but its updatedAt. *)
Theorem addMember_by_owner (db : Db) (pid : ObjectId) (p : Project) (member : ObjectId)
    (now : Date) :
  projects db !! pid = Some p →
  (¬ activeUser db member →
     ProjectService.addMember pid member (p_owner p) now db = (failure INVALID_USER, db))
  ∧ (activeUser db member → member = p_owner p ∨ member ∈ p_members p →
     ProjectService.addMember pid member (p_owner p) now db = (failure ALREADY_MEMBER, db))
  ∧ (activeUser db member → member ≠ p_owner p → member ∉ p_members p →
     let p' := mkProject (p_name p) (p_description p) (p_owner p)
                 (p_members p ++ [member])%list (p_status p) (p_createdAt p) now in
     ProjectService.addMember pid member (p_owner p) now db
     = (success (Some p'), mkDb (users db) (<[pid := p']> (projects db)) (tasks db))).
Proof.
  intros Hp. rewrite (addMember_run db pid member (p_owner p) p now Hp).
  assert (Ho : isOwner p (p_owner p) = true) by by apply isOwner_true.
  rewrite Ho. cbn [negb].
  split; [|split].
  - intros Hinactive.
    destruct (from_option u_isActive false (users db !! member)) eqn:Hact; [|done].
    by apply from_option_isActive in Hact.
  - intros Hact Hdup. apply from_option_isActive in Hact. rewrite Hact. cbn [negb].
    destruct Hdup as [Heq|Hin].
    + apply isOwner_true in Heq. rewrite Heq. by rewrite orb_true_r.
    + apply isMember_true in Hin. by rewrite Hin.
  - intros Hact Hne Hnotin. apply from_option_isActive in Hact. rewrite Hact.
    apply isOwner_false in Hne. pose proof Hnotin as Hnm.
    apply isMember_false in Hnm.
    rewrite Hne, Hnm. cbn [negb orb]. by rewrite addToSet_fresh.
Qed.

Lemma addMember_by_owner_witness :
  projects Sample.db !! "P" = Some Sample.proj
  ∧ ProjectService.addMember "P" "Z" "A" 9 Sample.db = (failure INVALID_USER, Sample.db)
  ∧ ProjectService.addMember "P" "B" "A" 9 Sample.db = (failure ALREADY_MEMBER, Sample.db)
  ∧ p_members <$> projects (snd (ProjectService.addMember "P" "C" "A" 9 Sample.db)) !! "P"
    = Some ["B"; "C"].
Proof.
  assert (Hp : projects Sample.db !! "P" = Some Sample.proj) by reflexivity.
  destruct (addMember_by_owner Sample.db "P" Sample.proj "Z" 9 Hp) as (HZ & _ & _).
  destruct (addMember_by_owner Sample.db "P" Sample.proj "B" 9 Hp) as (_ & HB & _).
  destruct (addMember_by_owner Sample.db "P" Sample.proj "C" 9 Hp) as (_ & _ & HC).
  split; [exact Hp|]. split; [|split].
  - apply HZ. intros Hact. apply from_option_isActive in Hact. by vm_compute in Hact.
  - apply HB.
    + apply from_option_isActive. by vm_compute.
    + right. apply list_elem_of_In. by left.
  - assert (Hact : activeUser Sample.db "C")
      by (apply from_option_isActive; by vm_compute).
    assert (Hne : "C" ≠ p_owner Sample.proj) by discriminate.
    assert (Hnotin : "C" ∉ p_members Sample.proj).
    { intros Hin. apply list_elem_of_In in Hin. destruct Hin as [Heq|[]]. discriminate. }
    pose proof (HC Hact Hne Hnotin) as Hrun. cbv zeta in Hrun.
    change (p_owner Sample.proj) with "A" in Hrun. by rewrite Hrun.
Defined.

(** Access after one project document was replaced. *)
Lemma canAccess_insert (db : Db) (pid : ObjectId) (p' : Project) (pid' u : ObjectId) :
  canAccess (mkDb (users db) (<[pid := p']> (projects db)) (tasks db)) pid' u
  ↔ (pid' = pid ∧ (u = p_owner p' ∨ u ∈ p_members p'))
    ∨ (pid' ≠ pid ∧ canAccess db pid' u).
Proof.
  unfold canAccess. cbn [projects].
  destruct (decide (pid' = pid)) as [->|Hne].
  - rewrite lookup_insert_eq. split.
    + intros (q & [= <-] & Hacc). left. by split.
    + intros [[_ Hacc]|[Hne _]]; [by exists p' | done].
  - rewrite lookup_insert_ne by done. split.
    + intros Hacc. right. by split.
    + intros [[Heq _]|[_ Hacc]]; [done | exact Hacc].
Qed.

Lemma removeMember_success_inv (db : Db) (pid member caller : ObjectId) (now : Date)
    (r : option Project) :
  fst (ProjectService.removeMember pid member caller now db) = success r →
  ∃ p, projects db !! pid = Some p
       ∧ (caller = p_owner p ∨ caller = member)
       ∧ member ≠ p_owner p
       ∧ member ∈ p_members p
       ∧ snd (ProjectService.removeMember pid member caller now db)
         = mkDb (users db)
                (<[pid := (ProjectRepository.setMembers
                             (ProjectRepository.pull member (p_members p)) now p)]>
                   (projects db))
                (tasks db).
Proof.
  destruct (projects db !! pid) as [p|] eqn:Hp.
  - rewrite (removeMember_run db pid member caller p now Hp).
    destruct (isOwner p caller) eqn:Ho; cbn [negb andb].
    + destruct (isOwner p member) eqn:Hom; [intros [=]|].
      destruct (isMember p member) eqn:Hm; cbn [negb]; [|intros [=]].
      intros _. exists p. apply isOwner_true in Ho. apply isOwner_false in Hom.
      apply isMember_true in Hm. repeat split; try done. by left.
    + destruct (String.eqb caller member) eqn:Hs; cbn [negb]; [|intros [=]].
      destruct (isOwner p member) eqn:Hom; [intros [=]|].
      destruct (isMember p member) eqn:Hm; cbn [negb]; [|intros [=]].
      intros _. exists p. apply String.eqb_eq in Hs. apply isOwner_false in Hom.
      apply isMember_true in Hm. repeat split; try done. by right.
  - run_service. rewrite Hp. simpl. intros [=].
Qed.

(** X2.  A successful add-member gives the new member access to the
    project, which that user did not have before, takes access away from
    nobody, and changes access to no other project. *)
Theorem addMember_grants_access (db : Db) (pid member caller : ObjectId) (now : Date)
    (r : option Project) :
  fst (ProjectService.addMember pid member caller now db) = success r →
  ¬ canAccess db pid member
  ∧ canAccess (snd (ProjectService.addMember pid member caller now db)) pid member
  ∧ (∀ u, canAccess db pid u →
          canAccess (snd (ProjectService.addMember pid member caller now db)) pid u)
  ∧ (∀ pid' u, pid' ≠ pid →
       (canAccess (snd (ProjectService.addMember pid member caller now db)) pid' u
        ↔ canAccess db pid' u)).
Proof.
  intros Hok.
  destruct (addMember_success_inv _ _ _ _ _ _ Hok) as (p & Hp & _ & _ & Hne & Hnotin & ->).
  split; [|split; [|split]].
  - intros (q & Hq & Hacc). simplify_eq. by destruct Hacc.
  - apply canAccess_insert. left. split; [done|]. right. cbn [p_members ProjectRepository.setMembers].
    apply elem_of_app. right. by apply list_elem_of_singleton.
  - intros u (q & Hq & Hacc). simplify_eq. apply canAccess_insert. left.
    split; [done|]. cbn [p_owner p_members ProjectRepository.setMembers].
    destruct Hacc as [Ho|Hm]; [by left|]. right. apply elem_of_app. by left.
  - intros pid' u Hpid. rewrite canAccess_insert. split.
    + by intros [[Heq _]|[_ Hacc]].
    + intros Hacc. right. by split.
Qed.

Lemma addMember_grants_access_witness :
  fst (ProjectService.addMember "P" "C" "A" 9 Sample.db)
  = success (Some (mkProject "Roadmap" "Quarterly roadmap" "A" ["B"; "C"] ps_active 1 9))
  ∧ ¬ canAccess Sample.db "P" "C"
  ∧ canAccess (snd (ProjectService.addMember "P" "C" "A" 9 Sample.db)) "P" "C".
Proof.
  assert (Hok : fst (ProjectService.addMember "P" "C" "A" 9 Sample.db)
    = success (Some (mkProject "Roadmap" "Quarterly roadmap" "A" ["B"; "C"] ps_active 1 9)))
    by by vm_compute.
  destruct (addMember_grants_access Sample.db "P" "C" "A" 9 _ Hok) as (Hbefore & Hafter & _).
  by split; [|split].
Defined.

(** X3.  A successful remove-member takes from the removed user the access
    that user had, whatever the number of times the id occurred in the
    member list, and changes nobody else's access to the project. *)
Theorem removeMember_revokes_access (db : Db) (pid member caller : ObjectId) (now : Date)
    (r : option Project) :
  fst (ProjectService.removeMember pid member caller now db) = success r →
  canAccess db pid member
  ∧ ¬ canAccess (snd (ProjectService.removeMember pid member caller now db)) pid member
  ∧ (∀ u, u ≠ member →
       (canAccess (snd (ProjectService.removeMember pid member caller now db)) pid u
        ↔ canAccess db pid u)).
Proof.
  intros Hok.
  destruct (removeMember_success_inv _ _ _ _ _ _ Hok) as (p & Hp & _ & Hne & Hin & ->).
  split; [|split].
  - exists p. split; [done|]. by right.
  - rewrite canAccess_insert. cbn [p_owner p_members ProjectRepository.setMembers].
    intros [[_ [Ho|Hm]]|[Hpid _]]; [done| |done].
    apply pull_elem in Hm. by destruct Hm.
  - intros u Hu. rewrite canAccess_insert.
    cbn [p_owner p_members ProjectRepository.setMembers]. rewrite pull_elem. split.
    + intros [[_ Hacc]|[Hpid _]]; [|done]. exists p. split; [done|].
      destruct Hacc as [Ho|[Hm _]]; [by left | by right].
    + intros (q & Hq & Hacc). simplify_eq. left. split; [done|].
      destruct Hacc as [Ho|Hm]; [by left | by right].
Qed.

Lemma removeMember_revokes_access_witness :
  fst (ProjectService.removeMember "P" "B" "B" 9 Sample.db)
  = success (Some (mkProject "Roadmap" "Quarterly roadmap" "A" [] ps_active 1 9))
  ∧ canAccess Sample.db "P" "B"
  ∧ ¬ canAccess (snd (ProjectService.removeMember "P" "B" "B" 9 Sample.db)) "P" "B".
Proof.
  assert (Hok : fst (ProjectService.removeMember "P" "B" "B" 9 Sample.db)
    = success (Some (mkProject "Roadmap" "Quarterly roadmap" "A" [] ps_active 1 9)))
    by by vm_compute.
  destruct (removeMember_revokes_access Sample.db "P" "B" "B" 9 _ Hok)
    as (Hbefore & Hafter & _).
  by split; [|split].
Defined.

(** X4.  Adding a member and then removing the same user (by the same
    caller) gives back the member list as it was before the addition; owner,
    name, description and status are untouched. *)
Theorem add_then_remove_restores_members (db : Db) (pid member caller : ObjectId)
    (now1 now2 : Date) (r : option Project) :
  fst (ProjectService.addMember pid member caller now1 db) = success r →
  ∃ p,
    projects db !! pid = Some p
    ∧ ProjectService.removeMember pid member caller now2
        (snd (ProjectService.addMember pid member caller now1 db))
      = (success (Some (mkProject (p_name p) (p_description p) (p_owner p) (p_members p)
                          (p_status p) (p_createdAt p) now2)),
         mkDb (users db)
              (<[pid := mkProject (p_name p) (p_description p) (p_owner p) (p_members p)
                          (p_status p) (p_createdAt p) now2]> (projects db))
              (tasks db)).
Proof.
  intros Hok.
  destruct (addMember_success_inv _ _ _ _ _ _ Hok)
    as (p & Hp & Hcaller & _ & Hne & Hnotin & ->).
  exists p. split; [done|].
  set (p1 := ProjectRepository.setMembers (p_members p ++ [member])%list now1 p).
  rewrite (removeMember_run _ pid member caller p1 now2)
    by (cbn [projects]; by rewrite lookup_insert_eq).
  assert (Ho : isOwner p1 caller = true) by (apply isOwner_true; by subst).
  assert (Hom : isOwner p1 member = false) by by apply isOwner_false.
  assert (Hm : isMember p1 member = true).
  { apply isMember_true. subst p1. cbn [p_members ProjectRepository.setMembers].
    apply elem_of_app. right. by apply list_elem_of_singleton. }
  rewrite Ho, Hom, Hm. cbn [negb andb]. cbv zeta. cbn [users projects tasks].
  rewrite insert_insert_eq.
  assert (Hpull : ProjectRepository.pull member (p_members p1) = p_members p).
  { subst p1. cbn [p_members ProjectRepository.setMembers].
    unfold ProjectRepository.pull. rewrite List.filter_app. simpl.
    assert (Heq : equals member member = true) by by apply equals_eq.
    rewrite Heq. simpl. rewrite app_nil_r. by apply pull_absent. }
  rewrite Hpull. done.
Qed.

Lemma add_then_remove_restores_members_witness :
  fst (ProjectService.addMember "P" "C" "A" 9 Sample.db)
  = success (Some (mkProject "Roadmap" "Quarterly roadmap" "A" ["B"; "C"] ps_active 1 9))
  ∧ p_members <$>
      projects (snd (ProjectService.removeMember "P" "C" "A" 12
                       (snd (ProjectService.addMember "P" "C" "A" 9 Sample.db)))) !! "P"
    = Some ["B"].
Proof.
  assert (Hok : fst (ProjectService.addMember "P" "C" "A" 9 Sample.db)
    = success (Some (mkProject "Roadmap" "Quarterly roadmap" "A" ["B"; "C"] ps_active 1 9)))
    by by vm_compute.
  split; [exact Hok|].
  destruct (add_then_remove_restores_members Sample.db "P" "C" "A" 9 12 _ Hok)
    as (p & Hp & Hrun).
  rewrite Hrun. cbn [snd projects]. rewrite lookup_insert_eq. cbn [fmap option_fmap option_map p_members].
  assert (Hp' : projects Sample.db !! "P" = Some Sample.proj) by reflexivity.
  rewrite Hp' in Hp. by injection Hp as <-.
Defined.

(** ** Deleting and creating projects *)







(** ** What each service writes *)

Lemma readers_frame `{Env} (call : ServiceCall) (now : Date) (db : Db) :
  mutatesProjects call = false → mutatesTasks call = false →
  projects (perform call now db) = projects db ∧ tasks (perform call now db) = tasks db.
Proof.
  destruct call; intros Hp Ht; try discriminate Hp; try discriminate Ht; unfold perform.
  - unfold UserService.register, UserRepository.findByEmail, UserRepository.create,
      bind, ret. cbn [fst snd].
    repeat (case_match; simplify_eq; cbn [fst snd projects tasks]; try done).
  - unfold UserService.login, UserRepository.findByEmailWithPassword,
      UserRepository.findByEmail, UserRepository.updateLastLogin, UserRepository.update,
      bind, ret. cbn [fst snd].
    repeat (case_match; simplify_eq; cbn [fst snd projects tasks]; try done).
  - unfold UserService.refreshToken, UserRepository.findById, bind, ret.
    repeat (case_match; cbn [fst snd]; try done).
  - unfold UserService.getUserProfile, UserRepository.findById, bind, ret.
    repeat (case_match; cbn [fst snd]; try done).
  - unfold UserService.updateProfile, UserRepository.emailExists, UserRepository.update,
      bind, ret. cbn [fst snd].
    repeat (case_match; simplify_eq; cbn [fst snd projects tasks]; try done).
  - unfold UserService.changePassword, UserRepository.findById,
      UserRepository.findByEmailWithPassword, UserRepository.findByEmail,
      UserRepository.update, bind, ret. cbn [fst snd].
    repeat (case_match; simplify_eq; cbn [fst snd projects tasks]; try done).
  - run_service. repeat (case_match; simpl; try done).
  - unfold TaskService.getTaskById, TaskRepository.findById, bind, ret. cbn [fst snd].
    destruct (tasks db !! taskId); [|done]. rewrite userHasAccess_snd.
    by destruct (negb _).
  - unfold TaskService.getProjectTasks, TaskRepository.findByProject, bind, ret.
    rewrite userHasAccess_snd. by destruct (negb _).
  - done.
Qed.

Lemma projectCalls_frame_tasks `{Env} (call : ServiceCall) (now : Date) (db : Db) :
  mutatesProjects call = true → tasks (perform call now db) = tasks db.
Proof.
  destruct call; intros Hp; try discriminate Hp; unfold perform.
  - run_service. unfold UserRepository.findAllActiveIn.
    repeat (case_match; simpl; try done).
  - run_service. repeat (case_match; simpl; try done).
  - run_service. repeat (case_match; simpl; try done).
  - run_service. repeat (case_match; simpl; try done).
  - run_service. repeat (case_match; simpl; try done).
Qed.

Lemma taskCalls_frame_projects `{Env} (call : ServiceCall) (now : Date) (db : Db) :
  mutatesTasks call = true → projects (perform call now db) = projects db.
Proof.
  destruct call; intros Ht; try discriminate Ht; unfold perform.
  - rewrite createTask_run. unfold TaskRepository.create.
    repeat (case_match; simplify_eq; cbn [fst snd projects]; try done).
  - destruct (tasks db !! taskId) as [t|] eqn:Hfind.
    + rewrite (updateTask_run db taskId t updateData userId now Hfind).
      unfold TaskRepository.update. rewrite Hfind.
      repeat (case_match; cbn [fst snd projects]; try done).
    + unfold TaskService.updateTask, TaskRepository.findById, bind, ret. cbn [fst snd].
      by rewrite Hfind.
  - unfold TaskService.deleteTask, TaskRepository.findById, TaskRepository.delete,
      bind, ret. cbn [fst snd].
    destruct (tasks db !! taskId) as [t|] eqn:Hfind; [|done]. rewrite userHasAccess_snd.
    destruct (negb _); [done|]. cbn [fst snd]. by rewrite Hfind.
  - rewrite bulkUpdateTasks_run.
    repeat (case_match; cbn [fst snd projects]; try done).
Qed.

Lemma projects_frame `{Env} (call : ServiceCall) (now : Date) (db : Db) :
  mutatesProjects call = false → projects (perform call now db) = projects db.
Proof.
  intros Hp. destruct (mutatesTasks call) eqn:Ht.
  - by apply taskCalls_frame_projects.
  - by apply readers_frame.
Qed.

Lemma tasks_frame `{Env} (call : ServiceCall) (now : Date) (db : Db) :
  mutatesTasks call = false → tasks (perform call now db) = tasks db.
Proof.
  intros Ht. destruct (mutatesProjects call) eqn:Hp.
  - by apply projectCalls_frame_tasks.
  - by apply readers_frame.
Qed.

(** Closes a goal [_ !! pid = Some p' → _] when the collection is the one
    [Hp] speaks of. *)
Ltac same_document Hp := unfold ret; cbn [fst snd]; rewrite Hp; intros [= <-]; done.

(** X7.  Each collection has its own writers: the projects collection is
    modified by no call other than project creation, update, deletion,
    add-member and remove-member, and the tasks collection by no call other
    than task creation, update, deletion and bulk update.  In particular
    deleting a project deletes no task, and no user-service call touches
    projects or tasks. *)
Theorem collections_have_their_own_writers `{Env} (call : ServiceCall) (now : Date)
    (db : Db) :
  (mutatesProjects call = false → projects (perform call now db) = projects db)
  ∧ (mutatesTasks call = false → tasks (perform call now db) = tasks db).
Proof.
  split; [apply projects_frame | apply tasks_frame].
Qed.

Lemma collections_have_their_own_writers_witness :
  mutatesTasks (DeleteProjectCall "P" "A") = false
  ∧ tasks (@perform Sample.env (DeleteProjectCall "P" "A") 9 Sample.db) = tasks Sample.db
  ∧ projects (@perform Sample.env (DeleteProjectCall "P" "A") 9 Sample.db) !! "P" = None.
Proof.
  assert (Ht : mutatesTasks (DeleteProjectCall "P" "A") = false) by reflexivity.
  split; [exact Ht|]. split; [|by vm_compute].
  exact (proj2 (@collections_have_their_own_writers Sample.env
                  (DeleteProjectCall "P" "A") 9 Sample.db) Ht).
Defined.

(** X8.  The owner of a project never changes: whatever call is made on
    the services, a project that was stored before and is still stored
    afterwards has the same owner and the same creation time. *)
Theorem project_owner_never_changes `{Env} (call : ServiceCall) (now : Date) (db : Db)
    (pid : ObjectId) (p p' : Project) :
  projects db !! pid = Some p →
  projects (perform call now db) !! pid = Some p' →
  p_owner p' = p_owner p ∧ p_createdAt p' = p_createdAt p.
Proof.
  intros Hp.
  destruct (mutatesProjects call) eqn:Hm.
  - destruct call; try discriminate Hm; unfold perform.
    + run_service. unfold UserRepository.findAllActiveIn.
      destruct (0 <? _)%nat; simpl.
      * destruct (negb _); simpl; [same_document Hp|].
        destruct (projects db !! newId) eqn:Hnew; simpl; [same_document Hp|].
        rewrite lookup_insert_eq. simpl.
        rewrite lookup_insert_ne by congruence. same_document Hp.
      * destruct (projects db !! newId) eqn:Hnew; simpl; [same_document Hp|].
        rewrite lookup_insert_eq. simpl.
        rewrite lookup_insert_ne by congruence. same_document Hp.
    + run_service.
      destruct (projects db !! projectId) as [q|] eqn:Hq; simpl;
        [|same_document Hp].
      destruct (negb _); simpl; [same_document Hp|].
      rewrite Hq. simpl. destruct (decide (projectId = pid)) as [->|Hne].
      * rewrite lookup_insert_eq. intros [= <-]. by simplify_eq.
      * rewrite lookup_insert_ne by done. same_document Hp.
    + run_service.
      destruct (projects db !! projectId) as [q|] eqn:Hq; simpl;
        [|same_document Hp].
      destruct (negb _); simpl; [same_document Hp|].
      rewrite Hq. simpl. destruct (decide (projectId = pid)) as [->|Hne].
      * by rewrite lookup_delete_eq.
      * rewrite lookup_delete_ne by done. same_document Hp.
    + destruct (projects db !! projectId) as [q|] eqn:Hq.
      * rewrite (addMember_run db projectId memberUserId requestUserId q now Hq).
        repeat (case_match; cbn [fst snd projects]); try (same_document Hp).
        destruct (decide (projectId = pid)) as [->|Hne].
        -- rewrite lookup_insert_eq. intros [= <-]. by simplify_eq.
        -- rewrite lookup_insert_ne by done. same_document Hp.
      * run_service. rewrite Hq. simpl. same_document Hp.
    + destruct (projects db !! projectId) as [q|] eqn:Hq.
      * rewrite (removeMember_run db projectId memberUserId requestUserId q now Hq).
        repeat (case_match; cbn [fst snd projects]); try (same_document Hp).
        destruct (decide (projectId = pid)) as [->|Hne].
        -- rewrite lookup_insert_eq. intros [= <-]. by simplify_eq.
        -- rewrite lookup_insert_ne by done. same_document Hp.
      * run_service. rewrite Hq. simpl. same_document Hp.
  - rewrite (projects_frame call now db Hm). same_document Hp.
Qed.

Lemma project_owner_never_changes_witness :
  projects Sample.db !! "P" = Some Sample.proj
  ∧ (∃ p', projects (@perform Sample.env
                       (UpdateProjectCall "P" (mkUpdateProject (Some "Plan") None
                                                 (Some ps_paused)) "A") 9 Sample.db) !! "P"
           = Some p'
           ∧ p_name p' = "Plan" ∧ p_owner p' = "A").
Proof.
  assert (Hp : projects Sample.db !! "P" = Some Sample.proj) by reflexivity.
  split; [exact Hp|]. eexists. split; [by vm_compute|]. split; [done|].
  refine (proj1 (@project_owner_never_changes Sample.env
                   (UpdateProjectCall "P" (mkUpdateProject (Some "Plan") None
                                             (Some ps_paused)) "A")
                   9 Sample.db "P" Sample.proj _ Hp _)).
  by vm_compute.
Defined.

(** X9.  A task never moves to another project: whatever call is made on
    the services (the bulk update included), a task that was stored before
    and is still stored afterwards has the same projectId and the same
    creation time. *)
Theorem task_project_never_changes `{Env} (call : ServiceCall) (now : Date) (db : Db)
    (tid : ObjectId) (t t' : Task) :
  tasks db !! tid = Some t →
  tasks (perform call now db) !! tid = Some t' →
  t_projectId t' = t_projectId t ∧ t_createdAt t' = t_createdAt t.
Proof.
  intros Hfind.
  destruct (mutatesTasks call) eqn:Hm.
  - destruct call; try discriminate Hm; unfold perform.
    + rewrite createTask_run. unfold TaskRepository.create.
      repeat (case_match; simplify_eq; cbn [fst snd tasks]); try same_document Hfind.
      all: (rewrite lookup_insert_ne by congruence); same_document Hfind.
    + destruct (tasks db !! taskId) as [q|] eqn:Hq.
      * rewrite (updateTask_run db taskId q updateData userId now Hq).
        unfold TaskRepository.update. rewrite Hq.
        repeat (case_match; cbn [fst snd tasks]); try same_document Hfind.
        destruct (decide (taskId = tid)) as [->|Hne].
        -- rewrite lookup_insert_eq. intros [= <-]. by simplify_eq.
        -- rewrite lookup_insert_ne by done. same_document Hfind.
      * unfold TaskService.updateTask, TaskRepository.findById, bind, ret.
        cbn [fst snd]. rewrite Hq. cbn [fst snd]. same_document Hfind.
    + unfold TaskService.deleteTask, TaskRepository.findById, TaskRepository.delete,
        bind, ret. cbn [fst snd].
      destruct (tasks db !! taskId) as [q|] eqn:Hq; [|same_document Hfind].
      rewrite userHasAccess_snd.
      destruct (negb _); cbn [fst snd]; [same_document Hfind|]. rewrite Hq.
      cbn [snd tasks]. destruct (decide (taskId = tid)) as [->|Hne].
      * by rewrite lookup_delete_eq.
      * rewrite lookup_delete_ne by done. same_document Hfind.
    + rewrite bulkUpdateTasks_run.
      repeat (case_match; cbn [fst snd tasks]); try same_document Hfind.
      unfold TaskRepository.bulkUpdate. cbn [snd tasks].
      rewrite map_lookup_imap, Hfind. cbn [mbind option_bind].
      intros [= <-]. by destruct (existsb _ _).
  - rewrite (tasks_frame call now db Hm). same_document Hfind.
Qed.

Lemma task_project_never_changes_witness :
  tasks Sample.db !! "T" = Some Sample.task
  ∧ (∃ t', tasks (@perform Sample.env
                    (BulkUpdateTasksCall (mkBulkUpdateTasks ["T"] (Some in_progress) (Some high)
                                            (Some "A")) "A") 9 Sample.db) !! "T"
           = Some t'
           ∧ t_assignedTo t' = "A" ∧ t_projectId t' = "P").
Proof.
  assert (Hfind : tasks Sample.db !! "T" = Some Sample.task) by reflexivity.
  split; [exact Hfind|]. eexists. split; [by vm_compute|]. split; [done|].
  refine (proj1 (@task_project_never_changes Sample.env
                   (BulkUpdateTasksCall (mkBulkUpdateTasks ["T"] (Some in_progress) (Some high)
                                           (Some "A")) "A")
                   9 Sample.db "T" Sample.task _ Hfind _)).
  by vm_compute.
Defined.

(** ** Creating and updating tasks *)



Lemma update_hook_completed (now : Date) (data : UpdateTask) :
  upT_status data = Some completed →
  taskSchema_pre_findOneAndUpdate now (toQuery data) = mkTaskUpdateQuery data (Some now) false.
Proof.
  intros Hs. unfold taskSchema_pre_findOneAndUpdate, toQuery.
  cbn [uq_fields uq_completedAt uq_unset_completedAt]. rewrite Hs.
  rewrite bool_decide_eq_true_2 by done.
  rewrite (bool_decide_eq_false_2 (is_Some None)) by (by intros [? ?]).
  done.
Qed.

(** X11.  A single-task update that carries status completed stamps
    completedAt with the time of the update even when the task was already
    completed, so the earlier completion time is overwritten; the save hook,
    in the same situation, keeps the completion time the task has. *)
Theorem updateTask_recompletion_restamps (db : Db) (tid : ObjectId) (t : Task)
    (data : UpdateTask) (actor : ObjectId) (now : Date) (r : option Task) :
  tasks db !! tid = Some t →
  upT_status data = Some completed →
  fst (TaskService.updateTask tid data actor now db) = success r →
  (∃ t', tasks (snd (TaskService.updateTask tid data actor now db)) !! tid = Some t'
         ∧ t_status t' = completed
         ∧ t_completedAt t' = Some now)
  ∧ (∀ d, t_status t = completed → t_completedAt t = Some d →
          t_completedAt (taskSchema_pre_save true now t) = Some d).
Proof.
  intros Hfind Hs. rewrite (updateTask_run db tid t data actor now Hfind).
  intros Hok. split.
  - destruct (negb (fst (ProjectRepository.userHasAccess _ actor db))); [done|].
    destruct (truthy _ && negb (from_option _ _ _)); [done|].
    destruct (truthy _ && negb (fst _)); [done|].
    unfold TaskRepository.update. rewrite Hfind. cbn [fst snd tasks].
    rewrite lookup_insert_eq. eexists. split; [done|].
    rewrite (update_hook_completed now data Hs). unfold applyTaskUpdate.
    cbn [uq_fields uq_completedAt t_status t_completedAt]. by rewrite Hs.
  - intros d Hst Hc. unfold taskSchema_pre_save. rewrite Hst, Hc. by cbn.
Qed.

Lemma updateTask_recompletion_restamps_witness :
  let done9 := snd (TaskService.updateTask "T"
                      (mkUpdateTask None None None (Some completed) None None)
                      "A" 9 Sample.db) in
  t_completedAt <$> tasks done9 !! "T" = Some (Some 9)
  ∧ t_completedAt <$>
      tasks (snd (TaskService.updateTask "T"
                    (mkUpdateTask None None None (Some completed) (Some high) None)
                    "B" 12 done9)) !! "T"
    = Some (Some 12).
Proof.
  cbv zeta.
  set (done9 := snd (TaskService.updateTask "T"
                       (mkUpdateTask None None None (Some completed) None None)
                       "A" 9 Sample.db)).
  assert (Hfind : tasks done9 !! "T"
                  = Some (mkTask "Draft" "Write the draft" "P" "B" completed medium 100
                            (Some 9) 2 9)) by by vm_compute.
  split; [by rewrite Hfind|].
  destruct (updateTask_recompletion_restamps done9 "T" _
              (mkUpdateTask None None None (Some completed) (Some high) None) "B" 12
              (Some (mkTask "Draft" "Write the draft" "P" "B" completed high 100
                       (Some 12) 2 12))
              Hfind eq_refl) as [(t' & Ht' & _ & Hc) _]; [by vm_compute|].
  by rewrite Ht', <- Hc.
Defined.




(** ** Login, registration and passwords *)

Lemma findByEmail_sound (db : Db) (email : string) (id : ObjectId) (u : User) :
  fst (UserRepository.findByEmail email db) = Some (id, u) →
  users db !! id = Some u ∧ u_email u = email.
Proof.
  unfold UserRepository.findByEmail. cbn [fst]. intros Hhead.
  assert (Hin : In (id, u) (List.filter (λ kv, String.eqb (u_email (snd kv)) email)
                              (map_to_list (users db)))).
  { destruct (List.filter _ _) as [|kv rest]; [done|]. injection Hhead as ->. by left. }
  apply filter_In in Hin as [Hin Heq]. cbn [snd] in Heq.
  split; [by apply elem_of_map_to_list, list_elem_of_In | by apply String.eqb_eq].
Qed.

(** With unique emails, looking a stored user up by email finds that user. *)
Lemma findByEmail_unique (db : Db) (id : ObjectId) (u : User) :
  emailUnique db → users db !! id = Some u →
  UserRepository.findByEmail (u_email u) db = (Some (id, u), db).
Proof.
  intros Huniq Hu.
  destruct (findByEmail_found db (u_email u)) as [[id' u'] Hfound]; [by eauto|].
  destruct (findByEmail_sound _ _ _ _ Hfound) as [Hu' Hemail].
  assert (id' = id) as -> by by eapply Huniq.
  assert (u' = u) as -> by congruence.
  unfold UserRepository.findByEmail in *. cbn [fst] in Hfound. by rewrite Hfound.
Qed.


Lemma sample_emails_unique : emailUnique Sample.db.
Proof.
  intros id1 u1 id2 u2 H1 H2 Heq.
  apply elem_of_map_to_list, list_elem_of_In in H1.
  apply elem_of_map_to_list, list_elem_of_In in H2.
  vm_compute in H1. vm_compute in H2.
  repeat (destruct H1 as [H1|H1]; [|]); try done;
    repeat (destruct H2 as [H2|H2]; [|]); try done; by simplify_eq.
Qed.


(** Registration and profile update keep emails unique. *)
Lemma emailUnique_insert_fresh (db : Db) (newId : ObjectId) (u : User) :
  emailUnique db →
  (∀ id u', users db !! id = Some u' → u_email u' ≠ u_email u) →
  emailUnique (mkDb (<[newId := u]> (users db)) (projects db) (tasks db)).
Proof.
  intros Huniq Hfresh id1 u1 id2 u2. cbn [users].
  destruct (decide (id1 = newId)) as [->|Hne1]; destruct (decide (id2 = newId)) as [->|Hne2];
    rewrite ?lookup_insert_eq, ?lookup_insert_ne by done; try done.
  - intros [= <-] H2 Heq. exfalso. by eapply Hfresh.
  - intros H1 [= <-] Heq. exfalso. by eapply Hfresh.
  - apply Huniq.
Qed.



(** X15.  Changing a password, in a database with unique emails.  An
    unknown user id gives USER_NOT_FOUND and a wrong current password
    INVALID_PASSWORD, both without a write.  With the right current password
    the stored password becomes the bcrypt hash of the new (non-empty)
    password, updatedAt is refreshed and nothing else changes; the
    confirmation field plays no part. *)
Theorem changePassword_outcomes `{Env} (db : Db) (userId : ObjectId)
    (passwordData : UserChangePassword) (now : Date) :
  emailUnique db →
  (users db !! userId = None →
     UserService.changePassword userId passwordData now db = (failure USER_NOT_FOUND, db))
  ∧ (∀ u, users db !! userId = Some u →
       (bcrypt_compare (chg_currentPassword passwordData) (u_password u) = false →
          UserService.changePassword userId passwordData now db
          = (failure INVALID_PASSWORD, db))
     ∧ (bcrypt_compare (chg_currentPassword passwordData) (u_password u) = true →
        chg_newPassword passwordData ≠ "" →
          UserService.changePassword userId passwordData now db
          = (success tt,
             mkDb (<[userId := mkUser (u_name u) (u_email u)
                                 (bcrypt_hash (chg_newPassword passwordData))
                                 (u_role u) (u_avatar u) (u_isActive u) (u_lastLogin u)
                                 (u_createdAt u) now]> (users db))
                  (projects db) (tasks db)))).
Proof.
  intros Huniq. split.
  - intros Hnone. unfold UserService.changePassword, bind, UserRepository.findById.
    cbn [fst snd]. by rewrite Hnone.
  - intros u Hu. unfold UserService.changePassword, bind, UserRepository.findById,
      UserRepository.findByEmailWithPassword.
    cbn [fst snd]. rewrite Hu. rewrite (findByEmail_unique db userId u Huniq Hu).
    cbn [fst snd]. unfold comparePassword. split.
    + by intros ->.
    + intros -> Hnew. cbn [negb]. unfold UserRepository.update, ret. rewrite Hu.
      cbn [fst snd]. unfold userSchema_pre_findOneAndUpdate. cbn [upU_password].
      by rewrite (truthy_Some _ Hnew).
Qed.

Lemma changePassword_outcomes_witness :
  emailUnique Sample.db
  ∧ users Sample.db !! "B" = Some Sample.bob
  ∧ @UserService.changePassword Sample.env "B"
      (mkUserChangePassword "guess" "New#pass1" "New#pass1") 9 Sample.db
    = (failure INVALID_PASSWORD, Sample.db)
  ∧ u_password <$>
      users (snd (@UserService.changePassword Sample.env "B"
                    (mkUserChangePassword "bob" "New#pass1" "something else") 9 Sample.db))
        !! "B"
    = Some "$2a$New#pass1".
Proof.
  assert (HB : users Sample.db !! "B" = Some Sample.bob) by reflexivity.
  split; [exact sample_emails_unique|]. split; [exact HB|].
  split.
  - destruct (@changePassword_outcomes Sample.env Sample.db "B"
                (mkUserChangePassword "guess" "New#pass1" "New#pass1") 9
                sample_emails_unique) as [_ Hknown].
    destruct (Hknown Sample.bob HB) as [Hwrong _]. apply Hwrong. reflexivity.
  - destruct (@changePassword_outcomes Sample.env Sample.db "B"
                (mkUserChangePassword "bob" "New#pass1" "something else") 9
                sample_emails_unique) as [_ Hknown].
    destruct (Hknown Sample.bob HB) as [_ Hright].
    rewrite Hright; [by vm_compute|reflexivity|discriminate].
Defined.

(** X16.  Email uniqueness is an invariant of registration and of profile
    update: from a database in which no two users share an email, a
    registration, and a profile update that carries no email or a non-empty
    one, lead to a database in which no two users share an email. *)
Theorem emailUnique_preserved `{Env} (db : Db) (now : Date) :
  emailUnique db →
  (∀ userData newId, emailUnique (snd (UserService.register userData newId now db)))
  ∧ (∀ userId updateData, uu_email updateData ≠ Some "" →
       emailUnique (snd (UserService.updateProfile userId updateData now db))).
Proof.
  intros Huniq. split.
  - intros userData newId. unfold UserService.register, bind.
    destruct (fst (UserRepository.findByEmail (reg_email userData) db)) as [found|] eqn:Hfind;
      [done|].
    change (snd (UserRepository.findByEmail (reg_email userData) db)) with db.
    unfold UserRepository.create. rewrite Hfind.
    destruct (users db !! newId) eqn:Hid; [done|]. cbn [fst snd].
    apply emailUnique_insert_fresh; [done|]. cbn [u_email userSchema_pre_save negb].
    intros id u Hu Heq.
    destruct (findByEmail_found db (reg_email userData)) as [found Hfound]; [by eauto|].
    congruence.
  - intros userId updateData Hemail.
    unfold UserService.updateProfile, bind, UserRepository.emailExists,
      UserRepository.update, ret.
    destruct (uu_email updateData) as [email|] eqn:He.
    + assert (Hne : email ≠ "") by congruence.
      rewrite (truthy_Some _ Hne). cbn [fst snd from_option id].
      destruct (existsb _ _) eqn:Hex; [done|]. cbn [fst snd].
      destruct (users db !! userId) as [u|] eqn:Hu; [|done]. cbn [fst snd].
      assert (Hfree : ∀ id u', users db !! id = Some u' → id ≠ userId → u_email u' ≠ email).
      { intros i u' Hu' Hid Heq. apply not_true_iff_false in Hex. apply Hex.
        apply existsb_exists. exists (i, u'). split.
        - by apply list_elem_of_In, elem_of_map_to_list.
        - cbn [fst snd from_option id]. apply andb_true_iff. split.
          + by apply String.eqb_eq.
          + destruct (truthy (Some userId)); [|done].
            by apply negb_true_iff, equals_neq. }
      intros id1 u1 id2 u2. cbn [users].
      unfold userSchema_pre_findOneAndUpdate, applyUserUpdate.
      cbn [truthy upU_password upU_email upU_name upU_avatar upU_isActive upU_lastLogin
           from_option id].
      destruct (decide (id1 = userId)) as [->|Hne1];
        destruct (decide (id2 = userId)) as [->|Hne2];
        rewrite ?lookup_insert_eq, ?lookup_insert_ne by done; try done.
      * intros [= <-] H2 Heq. cbn [u_email] in Heq. exfalso. by eapply Hfree.
      * intros H1 [= <-] Heq. cbn [u_email] in Heq. exfalso. by eapply Hfree.
      * apply Huniq.
    + cbn [truthy fst snd].
      destruct (users db !! userId) as [u|] eqn:Hu; [|done]. cbn [fst snd].
      intros id1 u1 id2 u2. cbn [users].
      unfold userSchema_pre_findOneAndUpdate, applyUserUpdate.
      cbn [truthy upU_password upU_email upU_name upU_avatar upU_isActive upU_lastLogin
           from_option id].
      destruct (decide (id1 = userId)) as [->|Hne1];
        destruct (decide (id2 = userId)) as [->|Hne2];
        rewrite ?lookup_insert_eq, ?lookup_insert_ne by done; try done.
      * intros [= <-] H2 Heq. cbn [u_email] in Heq. by eapply Huniq.
      * intros H1 [= <-] Heq. cbn [u_email] in Heq. by eapply Huniq.
      * apply Huniq.
Qed.

Lemma emailUnique_preserved_witness :
  emailUnique Sample.db
  ∧ emailUnique (snd (@UserService.register Sample.env
                        (mkUserRegistration "Eve" "eve@x.com" "Eve#pass1" "Eve#pass1")
                        "E" 9 Sample.db))
  ∧ emailUnique (snd (@UserService.updateProfile Sample.env "B"
                        (mkUserUpdate None (Some "robert@x.com") None None) 9 Sample.db)).
Proof.
  destruct (@emailUnique_preserved Sample.env Sample.db 9 sample_emails_unique)
    as [Hreg Hupd].
  split; [exact sample_emails_unique|]. split; [apply Hreg|apply Hupd; discriminate].
Defined.

(** ** Deactivated accounts *)

Lemma emailUnique_insert_same (db : Db) (userId : ObjectId) (u u' : User) :
  emailUnique db → users db !! userId = Some u → u_email u' = u_email u →
  emailUnique (mkDb (<[userId := u']> (users db)) (projects db) (tasks db)).
Proof.
  intros Huniq Hu Hemail id1 u1 id2 u2. cbn [users].
  destruct (decide (id1 = userId)) as [->|Hne1];
    destruct (decide (id2 = userId)) as [->|Hne2];
    rewrite ?lookup_insert_eq, ?lookup_insert_ne by done; try done.
  - intros [= <-] H2 Heq. rewrite Hemail in Heq. by eapply Huniq.
  - intros H1 [= <-] Heq. rewrite Hemail in Heq. by eapply Huniq.
  - apply Huniq.
Qed.

(** A profile update that carries only [isActive: false]. *)
Lemma updateProfile_deactivate_run `{Env} (db : Db) (userId : ObjectId) (u : User)
    (now : Date) :
  users db !! userId = Some u →
  snd (UserService.updateProfile userId (mkUserUpdate None None None (Some false)) now db)
  = mkDb (<[userId := mkUser (u_name u) (u_email u) (u_password u) (u_role u) (u_avatar u)
                        false (u_lastLogin u) (u_createdAt u) now]> (users db))
         (projects db) (tasks db).
Proof.
  intros Hu. unfold UserService.updateProfile, bind, UserRepository.update, ret.
  cbn [uu_email uu_name uu_avatar uu_isActive truthy fst snd]. rewrite Hu.
  by cbn.
Qed.

(** X17.  Deactivating an account through a profile update locks it out and
    leaves its place in the projects as it was.  After
    [updateProfile(userId, {isActive: false})] on a stored user, in a
    database with unique emails: the projects (so the ownerships and
    memberships of the user) and the tasks are unchanged; a login with the
    user's email answers USER_INACTIVE whatever the password; a request
    carrying a token that verifies for this user id is answered 401
    INVALID_USER; a refresh token for this user id is refused with
    INVALID_REFRESH_TOKEN; and no call can add the user to a project or
    create a task assigned to the user.  None of these writes anything. *)
Theorem deactivated_account_is_locked_out `{Env} (db : Db) (userId : ObjectId) (u : User)
    (now : Date) :
  emailUnique db → users db !! userId = Some u →
  let db' := snd (UserService.updateProfile userId
                    (mkUserUpdate None None None (Some false)) now db) in
  projects db' = projects db ∧ tasks db' = tasks db
  ∧ (∀ password now',
       UserService.login (mkUserLogin (u_email u) password) now' db'
       = (failure USER_INACTIVE, db'))
  ∧ (∀ headers now' decoded,
       truthy (Middleware.tokenOf headers) = true →
       jwt_verify (default "" (Middleware.tokenOf headers)) jwt_secret = Decoded decoded →
       jp_userId decoded = userId →
       Middleware.authenticate headers now' db' = (respond 401 INVALID_USER, db'))
  ∧ (∀ token decoded,
       verifyRefreshToken token = Decoded decoded → jp_userId decoded = userId →
       UserService.refreshToken token db' = (failure INVALID_REFRESH_TOKEN, db'))
  ∧ (∀ projectId requestUserId now',
       ∃ e, ProjectService.addMember projectId userId requestUserId now' db'
            = (failure e, db'))
  ∧ (∀ taskData actor newId now', ct_assignedTo taskData = userId →
       ∃ e, TaskService.createTask taskData actor newId now' db' = (failure e, db')).
Proof.
  intros Huniq Hu db'.
  pose proof (updateProfile_deactivate_run db userId u now Hu) as Hdb'.
  fold db' in Hdb'. clearbody db'. subst db'.
  set (u' := mkUser _ _ _ _ _ false _ _ _).
  set (db' := mkDb _ _ _).
  assert (Hu' : users db' !! userId = Some u') by (cbn [users db']; apply lookup_insert_eq).
  assert (Huniq' : emailUnique db') by by apply (emailUnique_insert_same db userId u u').
  split; [done|]. split; [done|]. split; [|split; [|split; [|split]]].
  - intros password now'.
    unfold UserService.login, bind, UserRepository.findByEmailWithPassword.
    cbn [login_email login_password].
    change (u_email u) with (u_email u').
    rewrite (findByEmail_unique db' userId u' Huniq' Hu'). by cbn.
  - intros headers now' decoded Htoken Hverify Hid.
    unfold Middleware.authenticate. rewrite Htoken, Hverify. cbn [negb].
    unfold bind, UserRepository.findById, ret. cbn [fst snd]. rewrite Hid, Hu'. by cbn.
  - intros token decoded Hverify Hid.
    unfold UserService.refreshToken. rewrite Hverify.
    unfold bind, UserRepository.findById, ret. cbn [fst snd]. rewrite Hid, Hu'. by cbn.
  - intros projectId requestUserId now'.
    destruct (projects db' !! projectId) as [p|] eqn:Hp.
    + rewrite (addMember_run db' projectId userId requestUserId p now' Hp).
      destruct (negb (isOwner p requestUserId)); [by eexists|].
      rewrite Hu'. cbn [from_option u_isActive u' negb]. by eexists.
    + exists PROJECT_NOT_FOUND.
      unfold ProjectService.addMember, bind, ProjectRepository.findById, ret.
      cbn [fst snd]. by rewrite Hp.
  - intros taskData actor newId now' Hassigned.
    rewrite createTask_run.
    destruct (negb (fst (ProjectRepository.userHasAccess _ actor db'))); [by eexists|].
    rewrite Hassigned, Hu'. cbn [from_option u_isActive u' negb]. by eexists.
Qed.

Lemma deactivated_account_is_locked_out_witness :
  let db' := snd (@UserService.updateProfile Sample.env "B"
                    (mkUserUpdate None None None (Some false)) 9 Sample.db) in
  @UserService.login Sample.env (mkUserLogin "bob@x.com" "bob") 10 db'
  = (failure USER_INACTIVE, db')
  ∧ @Middleware.authenticate Sample.env (Sample.bearer "B") 10 db'
    = (respond 401 INVALID_USER, db').
Proof.
  intros db'.
  destruct (@deactivated_account_is_locked_out Sample.env Sample.db "B" Sample.bob 9
              sample_emails_unique eq_refl)
    as (_ & _ & Hlogin & Hauth & _).
  split; [apply (Hlogin "bob" 10)|].
  apply (Hauth (Sample.bearer "B") 10 (mkJWTPayload "B" "bob@x.com" role_user));
    reflexivity.
Defined.

(** ** The middleware *)

(** X18.  The identity and role of a request are the token's, not the
    stored user's.  For a token that verifies and names a stored, active
    user, [authenticate] passes the request on with the id, email and role
    decoded from the token, whatever email and role the user record holds;
    the admin gate then passes exactly when the token's role is admin, and
    with an admin role in the token the project gate passes for every
    project id, stored or not, without reading the database. *)
Theorem token_role_decides `{Env} (db : Db) (headers : Headers) (now : Date)
    (decoded : JWTPayload) (u : User) :
  truthy (Middleware.tokenOf headers) = true →
  jwt_verify (default "" (Middleware.tokenOf headers)) jwt_secret = Decoded decoded →
  users db !! jp_userId decoded = Some u → u_isActive u = true →
  ∃ reqUser,
    fst (Middleware.authenticate headers now db) = next reqUser
    ∧ reqUser = mkReqUser (jp_userId decoded) (jp_email decoded) (jp_role decoded)
    ∧ (Middleware.requireAdmin (Some reqUser) = next tt ↔ jp_role decoded = role_admin)
    ∧ (Middleware.requireAdmin (Some reqUser) = respond 403 INSUFFICIENT_PERMISSIONS
       ↔ jp_role decoded = role_user)
    ∧ (jp_role decoded = role_admin →
       ∀ projectId db',
         Middleware.requireProjectMember (Some reqUser) projectId db' = (next tt, db')).
Proof.
  intros Htoken Hverify Hu Hactive. eexists. split; [|split; [reflexivity|]].
  - unfold Middleware.authenticate. rewrite Htoken, Hverify. cbn [negb].
    unfold bind, UserRepository.findById, UserRepository.updateLastLogin,
      UserRepository.update, ret.
    cbn [fst snd]. rewrite Hu. cbn [from_option]. rewrite Hactive. by cbn.
  - unfold Middleware.requireAdmin, Middleware.authorize, Middleware.requireProjectMember.
    cbn [ru_role existsb].
    destruct (jp_role decoded); cbn; repeat split; try done; by intros [=].
Qed.

Lemma token_role_decides_witness :
  ∃ reqUser,
    fst (@Middleware.authenticate Sample.env (Sample.bearer "D") 9 Sample.db) = next reqUser
    ∧ Middleware.requireProjectMember (Some reqUser) "no such project" Sample.db
      = (next tt, Sample.db).
Proof.
  destruct (@token_role_decides Sample.env Sample.db (Sample.bearer "D") 9
              (mkJWTPayload "D" "dan@x.com" role_admin) Sample.dan
              eq_refl eq_refl eq_refl eq_refl)
    as (reqUser & Hauth & _ & _ & _ & Hgate).
  exists reqUser. split; [exact Hauth|]. by apply Hgate.
Defined.

(** X19.  Refreshing a token never writes, and every refusal carries the
    one code INVALID_REFRESH_TOKEN.  It succeeds exactly when the refresh
    token verifies and names a stored, active user, and the new access token
    is then signed for the id in the token with the email and role read
    from the user record at that moment (not those in the refresh token). *)
Theorem refreshToken_outcomes `{Env} (db : Db) (token : string) :
  snd (UserService.refreshToken token db) = db
  ∧ (∀ e, fst (UserService.refreshToken token db) = failure e → e = INVALID_REFRESH_TOKEN)
  ∧ (∀ r, fst (UserService.refreshToken token db) = success r ↔
          ∃ decoded u,
            verifyRefreshToken token = Decoded decoded
            ∧ users db !! jp_userId decoded = Some u ∧ u_isActive u = true
            ∧ r = generateToken (mkJWTPayload (jp_userId decoded) (u_email u) (u_role u))).
Proof.
  unfold UserService.refreshToken.
  destruct (verifyRefreshToken token) as [decoded| |] eqn:Hverify.
  - unfold bind, UserRepository.findById, ret. cbn [fst snd].
    destruct (users db !! jp_userId decoded) as [u|] eqn:Hu.
    + destruct (u_isActive u) eqn:Hactive; cbn [negb fst snd].
      * split; [done|]. split; [by intros e [=]|]. intros r. split.
        -- intros [= <-]. by exists decoded, u.
        -- intros (decoded' & u' & [= <-] & Hu' & _ & ->).
           rewrite Hu in Hu'. by injection Hu' as <-.
      * split; [done|]. split; [by intros e [= <-]|]. intros r. split; [by intros [=]|].
        intros (decoded' & u' & [= <-] & Hu' & Hactive' & _).
        rewrite Hu in Hu'. injection Hu' as <-. congruence.
    + cbn [fst snd]. split; [done|]. split; [by intros e [= <-]|].
      intros r. split; [by intros [=]|].
      intros (decoded' & u' & [= <-] & Hu' & _). congruence.
  - unfold ret. cbn [fst snd]. split; [done|]. split; [by intros e [= <-]|].
    intros r. split; [by intros [=]|]. by intros (decoded' & u' & [=] & _).
  - unfold ret. cbn [fst snd]. split; [done|]. split; [by intros e [= <-]|].
    intros r. split; [by intros [=]|]. by intros (decoded' & u' & [=] & _).
Qed.

Lemma substring_all (s : string) : String.substring 0 (String.length s) s = s.
Proof. induction s as [|c s IH]; [done|]. cbn. by rewrite IH. Qed.

(** X20.  Where [authenticate] reads the token from.  When
    [req.headers.authorization] starts with [Bearer ] it is the only source:
    the request is treated as if the rest of that value had been sent as the
    token and [x-access-token] is ignored, so when the value is exactly
    [Bearer ] the answer is MISSING_TOKEN even when [x-access-token] carries
    a token.  A value that does not start with [Bearer ] (the prefix is
    case-sensitive) counts as absent and [x-access-token] is used. *)
Theorem bearer_header_takes_precedence `{Env} (x_access_token : option string)
    (now : Date) (db : Db) :
  (∀ t, Middleware.authenticate (mkHeaders (Some ("Bearer " +:+ t)) x_access_token) now db
        = Middleware.authenticate (mkHeaders None (Some t)) now db)
  ∧ Middleware.authenticate (mkHeaders (Some "Bearer ") x_access_token) now db
    = (respond 401 MISSING_TOKEN, db)
  ∧ (∀ authHeader, String.prefix "Bearer " authHeader = false →
       Middleware.authenticate (mkHeaders (Some authHeader) x_access_token) now db
       = Middleware.authenticate (mkHeaders None x_access_token) now db).
Proof.
  assert (Htoken : ∀ t, Middleware.tokenOf (mkHeaders (Some ("Bearer " +:+ t)) x_access_token)
                        = Some t).
  { intros t. unfold Middleware.tokenOf. cbn [h_authorization h_x_access_token].
    let s := eval cbv [String.append] in ("Bearer " +:+ t) in
    change ("Bearer " +:+ t) with s.
    cbn. replace (String.prefix "" t) with true by by destruct t.
    by rewrite Nat.sub_0_r, substring_all. }
  split; [|split].
  - intros t. unfold Middleware.authenticate. by rewrite Htoken.
  - pose proof (Htoken "") as Hbare. change ("Bearer " +:+ "") with "Bearer " in Hbare.
    unfold Middleware.authenticate. by rewrite Hbare.
  - intros authHeader Hprefix. unfold Middleware.authenticate, Middleware.tokenOf.
    cbn [h_authorization h_x_access_token]. by rewrite Hprefix, andb_false_r.
Qed.

Lemma bearer_header_takes_precedence_witness :
  @Middleware.authenticate Sample.env
    (mkHeaders (Some "bearer access-secret:B") (Some "access-secret:C")) 9 Sample.db
  = @Middleware.authenticate Sample.env (mkHeaders None (Some "access-secret:C")) 9 Sample.db.
Proof.
  destruct (@bearer_header_takes_precedence Sample.env (Some "access-secret:C") 9 Sample.db)
    as (_ & _ & Hother).
  apply Hother. reflexivity.
Defined.

(** X21.  Optional authentication sets [req.user] in exactly the cases in
    which [authenticate] would pass the request on, and to the same value;
    unlike [authenticate] it never writes (lastLogin is not stamped). *)
Theorem optionalAuth_agrees_with_authenticate `{Env} (headers : Headers) (now : Date)
    (db : Db) :
  snd (Middleware.optionalAuth headers db) = db
  ∧ ∀ reqUser, fst (Middleware.optionalAuth headers db) = Some reqUser
               ↔ fst (Middleware.authenticate headers now db) = next reqUser.
Proof.
  unfold Middleware.optionalAuth, Middleware.authenticate.
  destruct (negb (truthy (Middleware.tokenOf headers))); [by split|].
  destruct (jwt_verify _ _) as [decoded| |]; [|by split|by split].
  unfold bind, UserRepository.findById, UserRepository.updateLastLogin,
    UserRepository.update, ret. cbn [fst snd].
  destruct (users db !! jp_userId decoded) as [u|] eqn:Hu; cbn [from_option]; [|by split].
  destruct (u_isActive u); cbn [negb fst snd]; [|by split].
  split; [done|]. intros reqUser. split; by intros [= <-].
Qed.

(** X22.  The role gates.  [authorize(...roles)] passes a request exactly
    when it is authenticated and its role is one of [roles]; without
    [req.user] the answer is 401 NOT_AUTHENTICATED, with a role outside
    [roles] it is 403 INSUFFICIENT_PERMISSIONS.  So [requireUser] passes
    every authenticated request, and [requireAdmin] those with the admin
    role only. *)
Theorem authorize_decision (roles : list UserRole) :
  Middleware.authorize roles None = respond 401 NOT_AUTHENTICATED
  ∧ (∀ reqUser,
       (ru_role reqUser ∈ roles → Middleware.authorize roles (Some reqUser) = next tt)
       ∧ (ru_role reqUser ∉ roles →
          Middleware.authorize roles (Some reqUser) = respond 403 INSUFFICIENT_PERMISSIONS)
       ∧ Middleware.requireUser (Some reqUser) = next tt
       ∧ (Middleware.requireAdmin (Some reqUser) = next tt ↔ ru_role reqUser = role_admin)).
Proof.
  split; [done|]. intros reqUser.
  assert (Hin : existsb (λ r, bool_decide (r = ru_role reqUser)) roles = true
                ↔ ru_role reqUser ∈ roles).
  { rewrite existsb_exists. split.
    - intros (r & Hr & Heq). apply bool_decide_eq_true in Heq. subst r.
      by apply list_elem_of_In.
    - intros Hr. exists (ru_role reqUser). split; [by apply list_elem_of_In|].
      by apply bool_decide_eq_true. }
  unfold Middleware.requireUser, Middleware.requireAdmin, Middleware.authorize.
  split; [|split; [|split]].
  - intros Hr. apply Hin in Hr. by rewrite Hr.
  - intros Hr. destruct (existsb _ roles); [|done]. exfalso. by apply Hr, Hin.
  - cbn [existsb]. by destruct (ru_role reqUser).
  - cbn [existsb]. destruct (ru_role reqUser); cbn; split; done.
Qed.

Lemma authorize_decision_witness :
  Middleware.authorize [role_admin] (Some (mkReqUser "B" "bob@x.com" role_user))
  = respond 403 INSUFFICIENT_PERMISSIONS.
Proof.
  destruct (authorize_decision [role_admin]) as [_ Hroles].
  destruct (Hroles (mkReqUser "B" "bob@x.com" role_user)) as (_ & Hout & _).
  apply Hout. cbn [ru_role]. by intros [=]%list_elem_of_singleton.
Defined.

(** X23.  The ownership gate of the user routes.  An unauthenticated
    request is answered 401 and an admin passes.  For any other user, when
    the gate is built for the parameter [id] or [userId] it passes exactly
    when that URL parameter is the user's own id, and answers 403
    ACCESS_DENIED otherwise (also when the parameter is absent); built for
    any other parameter name it passes every authenticated request. *)
Theorem requireOwnership_decision (resourceParam : string) (reqUser : ReqUser)
    (params : string → option string) :
  requireOwnership resourceParam None params = own_respond 401 "NOT_AUTHENTICATED"
  ∧ (ru_role reqUser = role_admin →
     requireOwnership resourceParam (Some reqUser) params = own_next)
  ∧ (ru_role reqUser ≠ role_admin →
     (resourceParam = "id" ∨ resourceParam = "userId" →
        (params resourceParam = Some (ru_userId reqUser) →
           requireOwnership resourceParam (Some reqUser) params = own_next)
        ∧ (params resourceParam ≠ Some (ru_userId reqUser) →
           requireOwnership resourceParam (Some reqUser) params
           = own_respond 403 "ACCESS_DENIED"))
     ∧ (resourceParam ≠ "id" → resourceParam ≠ "userId" →
        requireOwnership resourceParam (Some reqUser) params = own_next)).
Proof.
  split; [done|]. unfold requireOwnership. split.
  - intros Hadmin. by rewrite bool_decide_eq_true_2.
  - intros Hrole. rewrite (bool_decide_eq_false_2 _ Hrole). split.
    + intros Hparam.
      assert (Hname : String.eqb resourceParam "id" || String.eqb resourceParam "userId"
                      = true) by by destruct Hparam as [-> | ->].
      rewrite Hname. cbn [andb]. split.
      * intros Hown. by rewrite (bool_decide_eq_true_2 _ Hown).
      * intros Hother. by rewrite (bool_decide_eq_false_2 _ Hother).
    + intros Hid HuserId. apply String.eqb_neq in Hid, HuserId. by rewrite Hid, HuserId.
Qed.

Lemma requireOwnership_decision_witness :
  requireOwnership "id" (Some (mkReqUser "B" "bob@x.com" role_user))
    (λ name, if String.eqb name "id" then Some "C" else None)
  = own_respond 403 "ACCESS_DENIED"
  ∧ requireOwnership "projectId" (Some (mkReqUser "B" "bob@x.com" role_user))
      (λ name, if String.eqb name "projectId" then Some "P" else None)
    = own_next.
Proof.
  split.
  - destruct (requireOwnership_decision "id" (mkReqUser "B" "bob@x.com" role_user)
                (λ name, if String.eqb name "id" then Some "C" else None))
      as (_ & _ & Huser).
    destruct Huser as [Hguarded _]; [discriminate|].
    destruct Hguarded as [_ Hdenied]; [by left|]. apply Hdenied. discriminate.
  - destruct (requireOwnership_decision "projectId" (mkReqUser "B" "bob@x.com" role_user)
                (λ name, if String.eqb name "projectId" then Some "P" else None))
      as (_ & _ & Huser).
    destruct Huser as [_ Hfree]; [discriminate|]. apply Hfree; discriminate.
Defined.

(** ** The project routes *)

(** X24.  Reading a project over its route takes ownership or membership,
    also for an admin.  In a database that stores no user under the empty
    id: when [GET /projects/:id] answers with the project, the authenticated
    user is its owner or one of its members.  The controller's service call
    fails only for a request with the admin role whose user has no access to
    the project: the project gate lets the admin through and the service
    then answers PROJECT_ACCESS_DENIED for a stored project and
    PROJECT_NOT_FOUND otherwise; every other refusal comes from the
    middleware. *)
Theorem GET_project_needs_membership `{Env} (headers : Headers) (projectId : ObjectId)
    (now : Date) (db : Db) :
  users db !! "" = None →
  (∀ p, fst (Routes.GET_project headers projectId now db) = next (success p) →
     ∃ reqUser, fst (Middleware.authenticate headers now db) = next reqUser
       ∧ projects db !! projectId = Some p
       ∧ (ru_userId reqUser = p_owner p ∨ ru_userId reqUser ∈ p_members p))
  ∧ (∀ e, fst (Routes.GET_project headers projectId now db) = next (failure e) →
     ∃ reqUser, fst (Middleware.authenticate headers now db) = next reqUser
       ∧ ru_role reqUser = role_admin
       ∧ ¬ canAccess db projectId (ru_userId reqUser)
       ∧ e = match projects db !! projectId with
             | Some _ => PROJECT_ACCESS_DENIED
             | None => PROJECT_NOT_FOUND
             end).
Proof.
  intros Hempty.
  pose proof (authenticate_effect headers now db) as (Hprojects & _ & Hauth).
  unfold Routes.GET_project, Routes.projectMember, bind.
  destruct (fst (Middleware.authenticate headers now db)) as [reqUser|status err];
    [|by split].
  destruct Hauth as (u & Hu & _ & _).
  assert (Hid : ru_userId reqUser ≠ "") by (intros Heq; rewrite Heq in Hu; congruence).
  unfold Middleware.requireProjectMember, ProjectService.getProjectById,
    ProjectRepository.findById, bind, ret.
  rewrite (truthy_Some _ Hid). cbn [from_option id andb].
  unfold canAccess. rewrite <- Hprojects.
  destruct (ru_role reqUser) eqn:Hrole; cbn [bool_decide decide_rel fst snd].
  - rewrite bool_decide_eq_true_2 by done. cbn [fst snd].
    destruct (projects _ !! projectId) as [p|] eqn:Hp; cbn [fst snd].
    + destruct (isOwner p (ru_userId reqUser)) eqn:Ho;
        destruct (isMember p (ru_userId reqUser)) eqn:Hm; cbn [negb andb fst snd].
      all: repeat match goal with
             | Hb : isOwner _ _ = true |- _ => apply isOwner_true in Hb
             | Hb : isOwner _ _ = false |- _ => apply isOwner_false in Hb
             | Hb : isMember _ _ = true |- _ => apply isMember_true in Hb
             | Hb : isMember _ _ = false |- _ => apply isMember_false in Hb
             end.
      all: split; [intros p' [= <-] | intros e [= <-]].
      all: try (exists reqUser; by eauto).
      exists reqUser. repeat split; try done.
      intros (p' & [= <-] & [Hown | Hmem]); done.
    + split; [by intros p' [=] | intros e [= <-]].
      exists reqUser. repeat split; try done. by intros (p' & [=] & _).
  - rewrite bool_decide_eq_false_2 by done. cbn [fst snd].
    destruct (projects _ !! projectId) as [p|] eqn:Hp; cbn [fst snd]; [|by split].
    destruct (isOwner p (ru_userId reqUser)) eqn:Ho;
      destruct (isMember p (ru_userId reqUser)) eqn:Hm; cbn [negb andb fst snd].
    all: try rewrite Hp; cbn [fst snd]; try rewrite Ho; try rewrite Hm;
      cbn [negb andb fst snd].
    all: repeat match goal with
           | Hb : isOwner _ _ = true |- _ => apply isOwner_true in Hb
           | Hb : isMember _ _ = true |- _ => apply isMember_true in Hb
           end.
    all: split; [intros p' [= <-] | by intros e [=]].
    all: exists reqUser; by eauto.
Qed.

Lemma GET_project_needs_membership_witness :
  ∃ reqUser,
    fst (@Middleware.authenticate Sample.env (Sample.bearer "D") 9 Sample.db) = next reqUser
    ∧ ru_role reqUser = role_admin
    ∧ ¬ canAccess Sample.db "P" (ru_userId reqUser).
Proof.
  destruct (@GET_project_needs_membership Sample.env (Sample.bearer "D") "P" 9 Sample.db
              eq_refl) as [_ Hfail].
  destruct (Hfail PROJECT_ACCESS_DENIED eq_refl) as (reqUser & Hauth & Hrole & Hno & _).
  by exists reqUser.
Defined.

(** ** Listings and counts *)

Lemma existsb_equals_flip (userId : ObjectId) (members : list ObjectId) :
  existsb (λ m, equals m userId) members = true ↔ userId ∈ members.
Proof.
  rewrite existsb_exists. split.
  - intros (m & Hin & Heq). apply equals_eq in Heq. subst m. by apply list_elem_of_In.
  - intros Hin. exists userId. split; [by apply list_elem_of_In | by apply equals_eq].
Qed.

(** X25.  The project list of a user.  [getUserProjects] always succeeds
    and writes nothing; the projects it lists are exactly those the user has
    access to (the stored projects the user owns or is a member of), each
    listed once. *)
Theorem getUserProjects_lists_accessible (db : Db) (userId : ObjectId) :
  ∃ listed,
    ProjectService.getUserProjects userId db = (success listed, db)
    ∧ NoDup listed.*1
    ∧ ∀ projectId, projectId ∈ listed.*1 ↔ canAccess db projectId userId.
Proof.
  eexists. split; [reflexivity|]. cbn [fst ProjectRepository.findByMember].
  split; [apply NoDup_fst_filter, NoDup_fst_map_to_list|].
  intros projectId. unfold canAccess. rewrite list_elem_of_fmap. split.
  - intros ([k p] & -> & Hin). apply list_elem_of_In, filter_In in Hin as [Hin Hacc].
    apply list_elem_of_In, elem_of_map_to_list in Hin. cbn [fst snd] in *.
    exists p. split; [done|].
    apply orb_true_iff in Hacc as [Ho|Hm].
    + left. by apply equals_eq in Ho.
    + right. by apply existsb_equals_flip.
  - intros (p & Hp & Hacc). exists (projectId, p). split; [done|].
    apply list_elem_of_In, filter_In. split.
    + by apply list_elem_of_In, elem_of_map_to_list.
    + cbn [snd]. apply orb_true_iff. destruct Hacc as [Ho|Hm].
      * left. by apply equals_eq.
      * right. by apply existsb_equals_flip.
Qed.

Lemma filter_or_and_length {A} (f g : A → bool) (l : list A) :
  (length (List.filter f l) + length (List.filter g l)
   = length (List.filter (λ x, f x || g x) l)
     + length (List.filter (λ x, f x && g x) l))%nat.
Proof.
  induction l as [|x l IH]; [done|]. cbn [List.filter].
  destruct (f x), (g x); cbn [orb andb length]; lia.
Qed.

Lemma filter_length_0 {A} (f : A → bool) (l : list A) :
  length (List.filter f l) = 0%nat ↔ ∀ x, In x l → f x = false.
Proof.
  induction l as [|x l IH]; cbn [List.filter].
  - split; [by intros _ x [] | done].
  - destruct (f x) eqn:Hfx; cbn [length].
    + split; [done|]. intros Hall. specialize (Hall x (or_introl eq_refl)). congruence.
    + rewrite IH. split.
      * intros Hall y [<-|Hy]; [done | by apply Hall].
      * intros Hall y Hy. apply Hall. by right.
Qed.

(** X26.  The dashboard total counts a project twice when the user is both
    its owner and one of its members.  The total is the number of owned
    projects plus the number of projects that list the user as a member; it
    exceeds the number of projects the user's project list shows by the
    number of stored projects whose owner is also in the member list, and
    the two agree exactly when there is no such project. *)
Theorem dashboard_total_double_counts (db : Db) (userId : ObjectId) :
  ∃ owned member total listed,
    ProjectRepository.getUserProjectDashboard userId db = ((owned, member, total), db)
    ∧ ProjectService.getUserProjects userId db = (success listed, db)
    ∧ total = (owned + member)%nat
    ∧ total = (length listed
               + length (List.filter (λ kv, isOwner (snd kv) userId && isMember (snd kv) userId)
                           (map_to_list (projects db))))%nat
    ∧ (total = length listed
       ↔ ∀ projectId p, projects db !! projectId = Some p →
                         ¬ (userId = p_owner p ∧ userId ∈ p_members p)).
Proof.
  do 4 eexists. split; [reflexivity|]. split; [reflexivity|].
  cbn [fst snd ProjectRepository.countOwned ProjectRepository.countMember
       ProjectRepository.findByMember].
  split; [done|].
  pose proof (filter_or_and_length
                (λ kv : ObjectId * Project, equals (p_owner (snd kv)) userId)
                (λ kv : ObjectId * Project,
                   existsb (λ m, equals m userId) (p_members (snd kv)))
                (map_to_list (projects db))) as Hcount.
  unfold isOwner, isMember. split; [exact Hcount|].
  rewrite Hcount. split.
  - intros Hsame projectId p Hp [Ho Hm].
    assert (Hzero : length (List.filter
                      (λ kv : ObjectId * Project,
                         equals (p_owner (snd kv)) userId
                         && existsb (λ m, equals m userId) (p_members (snd kv)))
                      (map_to_list (projects db))) = 0%nat) by lia.
    assert (Hin : In (projectId, p) (map_to_list (projects db)))
      by by apply list_elem_of_In, elem_of_map_to_list.
    pose proof (proj1 (filter_length_0 _ _) Hzero (projectId, p) Hin) as Hboth.
    cbn [snd] in Hboth. apply andb_false_iff in Hboth as [Hno|Hno].
    + apply equals_neq in Hno. congruence.
    + apply not_true_iff_false in Hno. apply Hno. by apply existsb_equals_flip.
  - intros Hnone.
    assert (Hzero : length (List.filter
                      (λ kv : ObjectId * Project,
                         equals (p_owner (snd kv)) userId
                         && existsb (λ m, equals m userId) (p_members (snd kv)))
                      (map_to_list (projects db))) = 0%nat); [|lia].
    apply filter_length_0. intros [projectId p] Hin. cbn [snd].
    apply list_elem_of_In, elem_of_map_to_list in Hin.
    destruct (equals (p_owner p) userId) eqn:Ho; [|done].
    destruct (existsb _ (p_members p)) eqn:Hm; [|done].
    exfalso. apply (Hnone projectId p Hin). split.
    + by apply equals_eq in Ho.
    + by apply existsb_equals_flip.
Qed.

Lemma countIf_status_partition (l : list Task) :
  length l
  = (TaskRepository.countIf (λ t, bool_decide (t_status t = todo)) l
     + TaskRepository.countIf (λ t, bool_decide (t_status t = in_progress)) l
     + TaskRepository.countIf (λ t, bool_decide (t_status t = completed)) l)%nat.
Proof.
  unfold TaskRepository.countIf. induction l as [|t l IH]; [done|].
  cbn [List.filter length].
  destruct (t_status t); repeat case_bool_decide; try done; cbn [length]; lia.
Qed.

Lemma countIf_priority_partition (l : list Task) :
  length l
  = (TaskRepository.countIf (λ t, bool_decide (t_priority t = high)) l
     + TaskRepository.countIf (λ t, bool_decide (t_priority t = medium)) l
     + TaskRepository.countIf (λ t, bool_decide (t_priority t = low)) l)%nat.
Proof.
  unfold TaskRepository.countIf. induction l as [|t l IH]; [done|].
  cbn [List.filter length].
  destruct (t_priority t); repeat case_bool_decide; try done; cbn [length]; lia.
Qed.

Lemma countIf_overdue_bound (now : Date) (l : list Task) :
  (TaskRepository.countIf (λ t, negb (bool_decide (t_status t = completed))
                                && (t_dueDate t <? now)%Z) l
   ≤ TaskRepository.countIf (λ t, bool_decide (t_status t = todo)) l
     + TaskRepository.countIf (λ t, bool_decide (t_status t = in_progress)) l)%nat.
Proof.
  unfold TaskRepository.countIf. induction l as [|t l IH]; [done|].
  cbn [List.filter length].
  destruct (t_status t); destruct (t_dueDate t <? now)%Z;
    repeat case_bool_decide; try done; cbn [negb andb length]; lia.
Qed.

(** X27.  The task statistics are consistent with one another, for every
    filter and every database: the total is the sum of the three status
    counts and also the sum of the three priority counts, and the overdue
    count is at most the number of tasks that are not completed.  Without a
    filter the total is the number of stored tasks.  Computing them writes
    nothing. *)
Theorem getTaskStats_consistent (db : Db) (projectId userId : option ObjectId)
    (now : Date) :
  let stats := fst (TaskRepository.getTaskStats projectId userId now db) in
  snd (TaskRepository.getTaskStats projectId userId now db) = db
  ∧ ts_total stats = (ts_todo stats + ts_inProgress stats + ts_completed stats)%nat
  ∧ ts_total stats = (ts_high stats + ts_medium stats + ts_low stats)%nat
  ∧ (ts_overdue stats ≤ ts_todo stats + ts_inProgress stats)%nat
  ∧ (ts_overdue stats + ts_completed stats ≤ ts_total stats)%nat
  ∧ (ts_total stats ≤ size (tasks db))%nat
  ∧ (projectId = None → userId = None → ts_total stats = size (tasks db)).
Proof.
  intros stats. subst stats. unfold TaskRepository.getTaskStats.
  cbn [fst snd ts_total ts_todo ts_inProgress ts_completed ts_overdue ts_high ts_medium
       ts_low].
  set (matched := List.filter _ _).
  pose proof (countIf_status_partition matched) as Hstatus.
  pose proof (countIf_priority_partition matched) as Hpriority.
  pose proof (countIf_overdue_bound now matched) as Hoverdue.
  assert (Hall : length (snd <$> map_to_list (tasks db)) = size (tasks db)).
  { by rewrite length_fmap, length_map_to_list. }
  assert (Hle : (length matched ≤ size (tasks db))%nat).
  { rewrite <- Hall. apply List.filter_length_le. }
  repeat split; try done; try lia.
  intros -> ->. subst matched. rewrite <- Hall. clear.
  induction (snd <$> map_to_list (tasks db)) as [|t l IH]; [done|].
  cbn. by rewrite IH.
Qed.

(** X28.  Pagination, on whole numbers with a positive page size and a page
    number from 1.  The page count is the least number of pages that hold
    [total] items: it is 0 exactly when there are none, and otherwise the
    last page starts before the end and the one after it would start at or
    past the end.  [hasNextPage] holds exactly when the next page's skip is
    still below [total], so exactly when the next page is not empty;
    [hasPrevPage] exactly when this page's skip is positive.  A page number
    past the last page skips every item. *)
Theorem pagination_meta_matches_skip (page limit total : Z) :
  (1 ≤ page)%Z → (1 ≤ limit)%Z → (0 ≤ total)%Z →
  let meta := Helpers.createPaginationMeta page limit total in
  (pm_pages meta = 0 ↔ total = 0)%Z
  ∧ (0 < total → Helpers.calculateSkip (pm_pages meta) limit < total
                 ∧ total ≤ Helpers.calculateSkip (pm_pages meta + 1) limit)%Z
  ∧ (pm_hasNextPage meta = true ↔ (Helpers.calculateSkip (page + 1) limit < total)%Z)
  ∧ (pm_hasPrevPage meta = true ↔ (0 < Helpers.calculateSkip page limit)%Z)
  ∧ (pm_pages meta < page → total ≤ Helpers.calculateSkip page limit)%Z.
Proof.
  intros Hpage Hlimit Htotal meta. subst meta.
  unfold Helpers.createPaginationMeta, Helpers.calculateSkip, Helpers.ceilDiv.
  cbn [pm_pages pm_hasNextPage pm_hasPrevPage].
  set (pages := ((total + limit - 1) / limit)%Z).
  assert (Hlow : (pages * limit ≤ total + limit - 1)%Z).
  { subst pages. rewrite Z.mul_comm. apply Z.mul_div_le. lia. }
  assert (Hhigh : (total + limit - 1 < (pages + 1) * limit)%Z).
  { subst pages.
    pose proof (Z.mod_pos_bound (total + limit - 1) limit ltac:(lia)) as Hmod.
    pose proof (Z.div_mod (total + limit - 1) limit ltac:(lia)) as Hdiv. nia. }
  assert (Hnonneg : (0 ≤ pages)%Z) by (subst pages; apply Z.div_pos; lia).
  rewrite Z.ltb_lt, Z.ltb_lt.
  repeat split; intros; try nia.
Qed.

Lemma pagination_meta_matches_skip_witness :
  pm_pages (Helpers.createPaginationMeta 3 10 21) = 3%Z
  ∧ (pm_hasNextPage (Helpers.createPaginationMeta 3 10 21) = true
     ↔ (Helpers.calculateSkip (3 + 1) 10 < 21)%Z).
Proof.
  split; [reflexivity|].
  apply (pagination_meta_matches_skip 3 10 21); lia.
Defined.

(** ** Tasks of a removed member *)


